(** * arcgis_corporate: a shallow embedding of the Survey123 helper classes

    The repository is one Python module, [arcgis_corporate.py], with four
    classes: [ConnectGIS] (login), [GetData] (download a layer or table as a
    data frame, optionally saved as CSV), [UploadToPortal] (overwrite a portal
    item from a local CSV) and [GetPhotos] (incremental download of photo
    attachments driven by [log_photos.json]).

    The vendor SDK ([arcgis]) is an interface of the embedding (class
    [ArcGIS]); the local file system, the console and the SDK calls that the
    specification talks about are threaded through a state-and-exception
    monad. *)

From stdpp Require Import gmap strings list fin_maps pretty.
From Stdlib Require Import ZArith Ascii.

Local Open Scope Z_scope.

(** ** Python values used by the module *)

(** Exceptions the modelled code can raise. [SDKError] stands for whatever
    the vendor SDK raises (network, authentication, server errors). *)
Inductive exn :=
  | IndexError
  | TypeError
  | AttributeError
  | NameError
  | ValueError
  | SDKError (msg : string).

Inductive res (A : Type) :=
  | Ok (a : A)
  | Raise (e : exn).
Arguments Ok {A} a.
Arguments Raise {A} e.

(** [l[i]] on a Python list: negative positions count from the end,
    anything outside [-len, len) raises IndexError. *)
Definition py_index {A} (l : list A) (i : Z) : res A :=
  let n := Z.of_nat (length l) in
  let j := if 0 <=? i then i else n + i in
  if (0 <=? j) && (j <? n)
  then match l !! Z.to_nat j with Some x => Ok x | None => Raise IndexError end
  else Raise IndexError.

(** [s.startswith(p)] *)
Fixpoint startswith (p s : string) : bool :=
  match p, s with
  | EmptyString, _ => true
  | String a p', String b s' => if decide (a = b) then startswith p' s' else false
  | String _ _, EmptyString => false
  end.

(** [s.endswith('/')] *)
Fixpoint endswith_sep (s : string) : bool :=
  match s with
  | EmptyString => false
  | String c EmptyString => if decide (c = "/"%char) then true else false
  | String _ s' => endswith_sep s'
  end.

(** [s.replace(old, new)] for a non-empty [old]: every non-overlapping
    occurrence, scanning from the left.  [skip] counts the characters of a
    matched occurrence that are still to be dropped. *)
Fixpoint replace_go (old new : string) (skip : nat) (s : string) : string :=
  match s with
  | EmptyString => EmptyString
  | String c s' =>
      match skip with
      | S k => replace_go old new k s'
      | O =>
          if startswith old s
          then new +:+ replace_go old new (String.length old - 1) s'
          else String c (replace_go old new O s')
      end
  end.

Definition replace (s old new : string) : string := replace_go old new O s.

(** [os.path.join(a, b)] (posixpath): an absolute [b] discards [a]; a
    separator is inserted unless [a] is empty or already ends with one. *)
Definition os_path_join (a b : string) : string :=
  if startswith "/" b then b
  else if decide (a = "") then b
  else if endswith_sep a then a +:+ b
  else a +:+ "/" +:+ b.

(** An optional argument that must be a [str]: [None] makes
    [os.path.join] and [+] raise TypeError. *)
Definition as_str (o : option string) : res string :=
  match o with Some s => Ok s | None => Raise TypeError end.

(** ** Dates

    [created_date] is a count of milliseconds since the Unix epoch.  The
    code turns it into a calendar date twice: with
    [datetime.utcfromtimestamp(ms/1000).strftime] for the folder name and with
    [pd.to_datetime(unit='ms')] followed by [.dt.strftime] for the log.  Both
    are modelled on integers (the float division [ms/1000] is taken as the
    floor), with the usual days-to-civil conversion of the proleptic
    Gregorian calendar. *)

Record datetime := mk_datetime {
  dt_year : Z; dt_month : Z; dt_day : Z;
  dt_hour : Z; dt_minute : Z; dt_second : Z }.

Definition civil_from_days (days : Z) : Z * Z * Z :=
  let z := days + 719468 in
  let era := z / 146097 in
  let doe := z - era * 146097 in
  let yoe := (doe - doe / 1460 + doe / 36524 - doe / 146096) / 365 in
  let doy := doe - (365 * yoe + yoe / 4 - yoe / 100) in
  let mp := (5 * doy + 2) / 153 in
  let d := doy - (153 * mp + 2) / 5 + 1 in
  let m := if mp <? 10 then mp + 3 else mp - 9 in
  let y := yoe + era * 400 + (if m <=? 2 then 1 else 0) in
  (y, m, d).

Definition utcfromtimestamp (secs : Z) : datetime :=
  let '(y, m, d) := civil_from_days (secs / 86400) in
  let s := secs mod 86400 in
  mk_datetime y m d (s / 3600) (s mod 3600 / 60) (s mod 60).

(** [pd.to_datetime(ms, unit='ms')], to the second. *)
Definition to_datetime_ms (ms : Z) : datetime := utcfromtimestamp (ms / 1000).

(** A two-digit, zero-padded field. *)
Definition pad2 (n : Z) : string :=
  if n <? 10 then "0" +:+ pretty n else pretty n.

(** One [strftime] directive: the character after the percent sign.  The
    year of [%Y] is printed without padding, which shows only before year
    1000. *)
Definition directive (c : ascii) (d : datetime) : string :=
  if decide (c = "d"%char) then pad2 (dt_day d)
  else if decide (c = "m"%char) then pad2 (dt_month d)
  else if decide (c = "Y"%char) then pretty (dt_year d)
  else if decide (c = "y"%char) then pad2 (dt_year d mod 100)
  else if decide (c = "H"%char) then pad2 (dt_hour d)
  else if decide (c = "M"%char) then pad2 (dt_minute d)
  else if decide (c = "S"%char) then pad2 (dt_second d)
  else String "%"%char (String c EmptyString).

Fixpoint strftime (fmt : string) (d : datetime) : string :=
  match fmt with
  | EmptyString => EmptyString
  | String c rest =>
      if decide (c = "%"%char)
      then match rest with
           | String x rest' => directive x d +:+ strftime rest' d
           | EmptyString => String c EmptyString
           end
      else String c (strftime rest d)
  end.

(** ** The remote form and the SDK *)

Record Layer := mk_layer {
  lyr_name : string;
  hasAttachments : bool }.

(** A feature of a query result: [feature.attributes]. *)
Record Feature := mk_feature {
  f_objectid : Z;
  f_created_date : Z }.

(** An entry of [attachments.get_list(oid)]; only ['id'] is read. *)
Record AttachmentInfo := mk_att {
  att_id : Z;
  att_name : string }.

Record Item := mk_item {
  item_title : string;
  layers : list Layer;
  tables : list Layer }.

Record DataFrame := mk_df {
  df_columns : list string;
  df_rows : list (list string) }.

(** Keyword arguments of [FeatureLayer.query]. *)
Record QueryArgs := mk_query {
  out_fields : string;
  where_ : string;
  return_geometry : bool;
  order_by_fields : string }.

(** The calls into [arcgis] the module makes.  Each may raise.
    [attachments_download] yields the name and the bytes of the attachment;
    writing them under [save_path] is done by [download] below. *)
Class ArcGIS := {
  GIS : res unit;
  content_get : string → res (option Item);
  content_search : string → string → res (list Item);
  query_as_df : Layer → res DataFrame;
  query : Layer → QueryArgs → res (list Feature);
  attachments_get_list : Layer → Z → res (list AttachmentInfo);
  attachments_download : Layer → Z → Z → res (string * string);
  item_update : Item → string → res bool }.

(** ** Local state: files, directories, and what the run did

    Files are keyed by the path string the code builds (two spellings of one
    path are two keys), directories are a set of such strings, and the trace
    lists in order the prints, SDK queries and file operations of a run.
    Local writes succeed; the local failures modelled are the ones the
    Python code can run into on its own values (IndexError, TypeError,
    AttributeError, NameError, an unreadable log). *)

(** A row of [log_photos.json]. *)
Record LogRow := mk_row {
  objectid : Z;
  created_date : string;
  id_form : string;
  local : string }.

Record CsvArgs := mk_csv {
  csv_index : bool;
  csv_decimal : string;
  csv_sep : string }.

Inductive file :=
  | JsonLog (rows : list LogRow)
  | CsvFile (args : CsvArgs) (df : DataFrame)
  | Blob (data : string).

(** Console messages, one constructor per [print] of the module. *)
Inductive Msg :=
  | MsgFormToDownload (it : option Item)
  | MsgUpdated (file_name : string)
  | MsgNotSaved (file_name : string)
  | MsgLogNotFound
  | MsgFormPhotos (it : option Item)
  | MsgNoNewPhotos
  | MsgDownloading (i n : nat)
  | MsgFileExists (oid : Z) (final_filename : string)
  | MsgAllDownloaded.

Inductive Event :=
  | EvPrint (m : Msg)
  | EvQuery (fs : Layer) (q : QueryArgs)
  | EvMakedirs (p : string)
  | EvDownload (p : string)
  | EvRename (src dst : string)
  | EvToJson (p : string) (rows : list LogRow)
  | EvToCsv (p : string) (args : CsvArgs) (df : DataFrame)
  | EvUpdate (it : Item) (data : string).

Record World := mk_world {
  w_files : gmap string file;
  w_dirs : gset string;
  w_trace : list Event }.

(** State and exceptions: a computation maps a world to the world it leaves
    and either a value or the exception that stopped it. *)
Definition M (A : Type) : Type := World → World * res A.

Global Instance M_ret : MRet M := λ A a w, (w, Ok a).
Global Instance M_bind : MBind M := λ A B f m w,
  match m w with
  | (w', Ok a) => f a w'
  | (w', Raise e) => (w', Raise e)
  end.

Definition lift {A} (r : res A) : M A := λ w, (w, r).
Definition raise {A} (e : exn) : M A := lift (Raise e).
Definition emit (e : Event) : M unit :=
  λ w, (mk_world (w_files w) (w_dirs w) (w_trace w ++ [e]), Ok tt).
Definition print (m : Msg) : M unit := emit (EvPrint m).

(** [os.path.exists] *)
Definition exists_in (w : World) (p : string) : bool :=
  bool_decide (is_Some (w_files w !! p)) || bool_decide (p ∈ w_dirs w).
Definition os_path_exists (p : string) : M bool := λ w, (w, Ok (exists_in w p)).

(** The proper ancestors of a path: its prefixes up to each separator. *)
Fixpoint ancestors_go (acc s : string) : list string :=
  match s with
  | EmptyString => []
  | String c s' =>
      (if decide (c = "/"%char) then (if decide (acc = "") then [] else [acc]) else [])
      ++ ancestors_go (acc +:+ String c EmptyString) s'
  end.
Definition ancestors (p : string) : list string := ancestors_go "" p.

(** [os.makedirs(p)]: the directory and every missing ancestor. *)
Definition os_makedirs (p : string) : M unit := λ w,
  (mk_world (w_files w) (list_to_set (p :: ancestors p) ∪ w_dirs w)
            (w_trace w ++ [EvMakedirs p]), Ok tt).

(** [os.rename(src, dst)]: the file moves, replacing what was at [dst]. *)
Definition os_rename (src dst : string) : M unit := λ w,
  match w_files w !! src with
  | Some f =>
      (mk_world (<[dst := f]> (delete src (w_files w))) (w_dirs w)
                (w_trace w ++ [EvRename src dst]), Ok tt)
  | None => (w, Raise (SDKError "FileNotFoundError"))
  end.

(** Writing a file, with the event that records the write. *)
Definition write_file (e : Event) (p : string) (f : file) : M unit := λ w,
  (mk_world (<[p := f]> (w_files w)) (w_dirs w) (w_trace w ++ [e]), Ok tt).

(** ** pandas: the log frame *)

(** The result of [Series.max()]: an integer, or [nan] on an empty column. *)
Inductive number :=
  | Int (z : Z)
  | NaN.

Definition series_max (col : list Z) : number :=
  match col with
  | [] => NaN
  | x :: rest => Int (foldr Z.max x rest)
  end.

(** How an f-string prints the cursor. *)
Definition fmt_number (n : number) : string :=
  match n with
  | Int z => pretty z
  | NaN => "nan"
  end.

(** [pd.read_json(p)]: the rows of a log written by [to_json]. *)
Definition read_json (p : string) : M (list LogRow) := λ w,
  match w_files w !! p with
  | Some (JsonLog rows) => (w, Ok rows)
  | _ => (w, Raise ValueError)
  end.

(** [df.to_json(p)]: the file is replaced by the frame. *)
Definition to_json (df : list LogRow) (p : string) : M unit :=
  write_file (EvToJson p df) p (JsonLog df).

(** [df.to_csv(p, index=.., decimal=.., sep=..)] *)
Definition to_csv (df : DataFrame) (p : string) (args : CsvArgs) : M unit :=
  write_file (EvToCsv p args df) p (CsvFile args df).

(** [new_objects_control]: a dict of four lists filled in step. *)
Record Control := mk_control {
  nc_objectid : list Z;
  nc_created_date : list Z;
  nc_id_form : list string;
  nc_local : list string }.

Definition new_objects_control : Control := mk_control [] [] [] [].

Definition control_append (nc : Control) (oid cd : Z) (form loc : string) : Control :=
  mk_control (nc_objectid nc ++ [oid]) (nc_created_date nc ++ [cd])
             (nc_id_form nc ++ [form]) (nc_local nc ++ [loc]).

(** Rows of the frame before the date column is formatted. *)
Record RawRow := mk_raw {
  raw_objectid : Z;
  raw_created_date : Z;
  raw_id_form : string;
  raw_local : string }.

Fixpoint zip_rows (a b : list Z) (c d : list string) : list RawRow :=
  match a, b, c, d with
  | x :: a', y :: b', z :: c', t :: d' => mk_raw x y z t :: zip_rows a' b' c' d'
  | _, _, _, _ => []
  end.

(** [pd.DataFrame(new_objects_control)]: columns of unequal length are
    refused. *)
Definition pd_DataFrame (nc : Control) : res (list RawRow) :=
  let n := length (nc_objectid nc) in
  if (length (nc_created_date nc) =? n)%nat && (length (nc_id_form nc) =? n)%nat
     && (length (nc_local nc) =? n)%nat
  then Ok (zip_rows (nc_objectid nc) (nc_created_date nc) (nc_id_form nc) (nc_local nc))
  else Raise ValueError.

(** Lines 318 and 319: the date column, from milliseconds to text. *)
Definition format_created_date (ms : Z) : string :=
  strftime "%d/%m/%Y %H:%M:%S" (to_datetime_ms ms).

Definition format_row (r : RawRow) : LogRow :=
  mk_row (raw_objectid r) (format_created_date (raw_created_date r))
         (raw_id_form r) (raw_local r).

(** ** The classes *)

Section Classes.
Context `{sdk : ArcGIS}.

(** *** ConnectGIS *)

Definition connect_to_gis : M unit := lift GIS.

(** Attribute access on the result of [content.get], which is [None] for an
    unknown id. *)
Definition deref (it : option Item) : res Item :=
  match it with Some i => Ok i | None => Raise AttributeError end.

(** *** GetData *)

Record GetData := mk_GetData {
  gd_id_form : string;
  gd_prefix : option string;
  gd_save_directory : string;
  gd_survey_by_id : option Item }.

Definition GetData_init (id_form save_directory : string) (prefix : option string)
  : M GetData :=
  connect_to_gis ;;
  survey_by_id ← lift (content_get id_form);
  print (MsgFormToDownload survey_by_id) ;;
  mret (mk_GetData id_form prefix save_directory survey_by_id).

Definition csv_args : CsvArgs := mk_csv false "," ";".

(** The saving tail shared, line for line, by [get_main_layer] and
    [get_table]. *)
Definition save_frame (self : GetData) (df : DataFrame) (save : bool)
    (file_name : option string) : M DataFrame :=
  if save then
    match gd_prefix self with
    | None =>
        fn ← lift (as_str file_name);
        let file := os_path_join (gd_save_directory self) (fn +:+ ".csv") in
        to_csv df file csv_args ;;
        mret df
    | Some prefix =>
        fn ← lift (as_str file_name);
        let file := os_path_join (gd_save_directory self) (prefix +:+ fn +:+ ".csv") in
        to_csv df file csv_args ;;
        mret df
    end
  else mret df.

Definition get_main_layer (self : GetData) (layer_position : Z) (save : bool)
    (file_name : option string) : M DataFrame :=
  survey ← lift (deref (gd_survey_by_id self));
  main_layer ← lift (py_index (layers survey) layer_position);
  df_main ← lift (query_as_df main_layer);
  save_frame self df_main save file_name.

Definition get_table (self : GetData) (table_position : Z) (save : bool)
    (file_name : option string) : M DataFrame :=
  survey ← lift (deref (gd_survey_by_id self));
  rel_table ← lift (py_index (tables survey) table_position);
  df_table ← lift (query_as_df rel_table);
  save_frame self df_table save file_name.

(** *** UploadToPortal *)

Definition update (it : Item) (data : string) : M bool :=
  emit (EvUpdate it data) ;; lift (item_update it data).

Definition upload_to_portal (upload_directory file_name file_format : string) : M unit :=
  connect_to_gis ;;
  found ← lift (content_search file_name file_format);
  data_portal ← lift (py_index found 0);
  let file := os_path_join upload_directory (file_name +:+ ".csv") in
  ok ← update data_portal file;
  if (ok : bool) then print (MsgUpdated file_name) else print (MsgNotSaved file_name).

(** *** GetPhotos *)

Record GetPhotos := mk_GetPhotos {
  gp_id_form : string;
  gp_save_directory : string;
  gp_folder_name : option string }.

(** Lines 225 to 233: the cursor and, when the log exists, its rows. *)
Definition load_cursor (log_file : string) : M (option (list LogRow) * number) :=
  ex ← os_path_exists log_file;
  if (ex : bool) then
    df_log_previous ← read_json log_file;
    mret (Some df_log_previous, series_max (objectid <$> df_log_previous))
  else
    print MsgLogNotFound ;;
    mret (None, Int 0).

(** Lines 256 to 261. *)
Definition query_args (max_oid : number) : QueryArgs :=
  mk_query "created_date" ("objectid > " +:+ fmt_number max_oid) false "objectid ASC".

Definition fs_query (fs : Layer) (q : QueryArgs) : M (list Feature) :=
  emit (EvQuery fs q) ;; lift (query fs q).

(** [fs.attachments.download(oid, attachment_id, save_path)]: the file lands
    under [save_path] with the attachment's name, and the call returns a
    one-element list with its path. *)
Definition download (fs : Layer) (oid attachment_id : Z) (save_path : string)
  : M (list string) :=
  nd ← lift (attachments_download fs oid attachment_id);
  let p := os_path_join save_path nd.1 in
  write_file (EvDownload p) p (Blob nd.2) ;;
  mret [p].

(** Lines 300 to 303. *)
Definition final_name (path : string) (object_oid : Z) : string :=
  replace path ".jpg" ("-oid_" +:+ pretty object_oid +:+ ".jpg").

(** Lines 293 to 312, for one attachment. *)
Definition attachment_body (fs : Layer) (object_oid : Z) (final_folder : string)
    (a : AttachmentInfo) : M unit :=
  let attachment_id := att_id a in
  object_attachment_path ← download fs object_oid attachment_id final_folder;
  path0 ← lift (py_index object_attachment_path 0);
  let final_filename := final_name path0 object_oid in
  ex ← os_path_exists final_filename;
  if negb ex then os_rename path0 final_filename
  else print (MsgFileExists object_oid final_filename).

(** [for k in range(len(object_oid_attachments))] *)
Fixpoint attachments_loop (fs : Layer) (object_oid : Z) (final_folder : string)
    (atts : list AttachmentInfo) : M unit :=
  match atts with
  | [] => mret tt
  | a :: rest =>
      attachment_body fs object_oid final_folder a ;;
      attachments_loop fs object_oid final_folder rest
  end.

Definition final_folder_of (self : GetPhotos) (feature : Feature) : res string :=
  let folder_date :=
    strftime "%y-%m-%d" (utcfromtimestamp (f_created_date feature / 1000)) in
  match as_str (gp_folder_name self) with
  | Ok folder_name =>
      Ok (os_path_join (os_path_join (gp_save_directory self) folder_name) folder_date)
  | Raise e => Raise e
  end.

(** Lines 270 to 312, for one feature of a query result of [n] features. *)
Definition feature_body (self : GetPhotos) (fs : Layer) (n : nat)
    (nc : Control) (indice : nat) (feature : Feature) : M Control :=
  print (MsgDownloading (indice + 1) n) ;;
  final_folder ← lift (final_folder_of self feature);
  ex ← os_path_exists final_folder;
  (if negb ex then os_makedirs final_folder else mret tt) ;;
  let nc := control_append nc (f_objectid feature) (f_created_date feature)
              (gp_id_form self) final_folder in
  let object_oid := f_objectid feature in
  object_oid_attachments ← lift (attachments_get_list fs object_oid);
  (if (0 <? length object_oid_attachments)%nat
   then attachments_loop fs object_oid final_folder object_oid_attachments
   else mret tt) ;;
  mret nc.

(** [for indice, feature in enumerate(feature_object_ids.features)] *)
Fixpoint features_loop (self : GetPhotos) (fs : Layer) (n : nat)
    (nc : Control) (indice : nat) (features : list Feature) : M Control :=
  match features with
  | [] => mret nc
  | feature :: rest =>
      nc ← feature_body self fs n nc indice feature;
      features_loop self fs n nc (S indice) rest
  end.

(** Lines 253 to 312, for one layer or table. *)
Definition layer_body (self : GetPhotos) (max_oid : number) (nc : Control)
    (fs : Layer) : M Control :=
  if hasAttachments fs then
    features ← fs_query fs (query_args max_oid);
    if (length features =? 0)%nat then print MsgNoNewPhotos ;; mret nc
    else features_loop self fs (length features) nc 0 features
  else mret nc.

(** [for indice_fs, fs in enumerate(rel_fs)] *)
Fixpoint layers_loop (self : GetPhotos) (max_oid : number) (nc : Control)
    (rel_fs : list Layer) : M Control :=
  match rel_fs with
  | [] => mret nc
  | fs :: rest =>
      nc ← layer_body self max_oid nc fs;
      layers_loop self max_oid nc rest
  end.

(** Lines 314 to 328.  [df_log_previous] is [None] when the name was never
    bound. *)
Definition persist_log (log_file : string) (df_log_previous : option (list LogRow))
    (nc : Control) : M unit :=
  raw ← lift (pd_DataFrame nc);
  let df_log_new := format_row <$> raw in
  ex ← os_path_exists log_file;
  df_log_new ← (if (ex : bool) then
                  match df_log_previous with
                  | Some prev => mret (prev ++ df_log_new)
                  | None => raise NameError
                  end
                else mret df_log_new);
  to_json df_log_new log_file ;;
  print MsgAllDownloaded.

Definition log_path (self : GetPhotos) : string :=
  os_path_join (gp_save_directory self) "log_photos.json".

Definition get_photos (self : GetPhotos) : M unit :=
  let log_file := log_path self in
  cursor ← load_cursor log_file;
  connect_to_gis ;;
  survey_by_id ← lift (content_get (gp_id_form self));
  survey ← lift (deref survey_by_id);
  let rel_fs := layers survey ++ tables survey in
  print (MsgFormPhotos survey_by_id) ;;
  nc ← layers_loop self cursor.2 new_objects_control rel_fs;
  persist_log log_file cursor.1 nc.

End Classes.

(** ** A reference portal

    A small in-memory portal implementing [ArcGIS], used to run the classes
    on concrete inputs.  Its [query] honours the three keyword arguments the
    module sends: it reads the bound out of the where clause, keeps the
    records above it and sorts them by objectid. *)

Module Portal.

Record Rec := mk_rec {
  rec_feature : Feature;
  rec_attachments : list (AttachmentInfo * string) }.

Record Remote := mk_remote {
  rm_form : string;
  rm_item : Item;
  rm_data : list (string * list Rec);
  rm_catalog : list Item }.

Definition digit (c : ascii) : option Z :=
  let n := Z.of_nat (nat_of_ascii c) in
  if (48 <=? n) && (n <=? 57) then Some (n - 48) else None.

Fixpoint parse_digits (acc : Z) (s : string) : option Z :=
  match s with
  | EmptyString => Some acc
  | String c s' =>
      match digit c with
      | Some d => parse_digits (10 * acc + d) s'
      | None => None
      end
  end.

Definition parse_int (s : string) : option Z :=
  match s with
  | EmptyString => None
  | String c s' =>
      if decide (c = "-"%char)
      then match s' with EmptyString => None | _ => Z.opp <$> parse_digits 0 s' end
      else parse_digits 0 s
  end.

Fixpoint strip_prefix (p s : string) : option string :=
  match p, s with
  | EmptyString, _ => Some s
  | String a p', String b s' => if decide (a = b) then strip_prefix p' s' else None
  | String _ _, EmptyString => None
  end.

Definition parse_where (w : string) : option Z :=
  strip_prefix "objectid > " w ≫= parse_int.

Fixpoint insert_sorted (f : Feature) (l : list Feature) : list Feature :=
  match l with
  | [] => [f]
  | g :: l' =>
      if f_objectid f <=? f_objectid g then f :: l else g :: insert_sorted f l'
  end.

Definition sort_by_objectid (l : list Feature) : list Feature :=
  foldr insert_sorted [] l.

Definition records_of (r : Remote) (fs : Layer) : list Rec :=
  default [] (snd <$> list_find (λ kv, bool_decide (kv.1 = lyr_name fs)) (rm_data r) ≫= λ x, Some x.2).

Definition find_record (r : Remote) (fs : Layer) (oid : Z) : option Rec :=
  snd <$> list_find (λ rc, bool_decide (f_objectid (rec_feature rc) = oid)) (records_of r fs).

Definition serve_query (r : Remote) (fs : Layer) (q : QueryArgs) : res (list Feature) :=
  match parse_where (where_ q) with
  | Some bound =>
      let kept := filter (λ f, bound < f_objectid f) (rec_feature <$> records_of r fs) in
      Ok (if decide (order_by_fields q = "objectid ASC") then sort_by_objectid kept else kept)
  | None => Raise (SDKError "invalid where clause")
  end.

Definition serve_get_list (r : Remote) (fs : Layer) (oid : Z) : res (list AttachmentInfo) :=
  match find_record r fs oid with
  | Some rc => Ok (fst <$> rec_attachments rc)
  | None => Ok []
  end.

Definition serve_download (r : Remote) (fs : Layer) (oid aid : Z) : res (string * string) :=
  match find_record r fs oid with
  | Some rc =>
      match list_find (λ a, bool_decide (att_id a.1 = aid)) (rec_attachments rc) with
      | Some (_, (a, data)) => Ok (att_name a, data)
      | None => Raise (SDKError "attachment not found")
      end
  | None => Raise (SDKError "record not found")
  end.

Definition serve_query_df (r : Remote) (fs : Layer) : res DataFrame :=
  Ok (mk_df ["objectid"; "created_date"]
        ((λ rc, [pretty (f_objectid (rec_feature rc)); pretty (f_created_date (rec_feature rc))])
           <$> records_of r fs)).

Definition serve_search (r : Remote) (q ty : string) : res (list Item) :=
  Ok (filter (λ it, item_title it = q) (rm_catalog r)).

Definition sdk (r : Remote) : ArcGIS := {|
  GIS := Ok tt;
  content_get := λ id, Ok (if decide (id = rm_form r) then Some (rm_item r) else None);
  content_search := serve_search r;
  query_as_df := serve_query_df r;
  query := serve_query r;
  attachments_get_list := serve_get_list r;
  attachments_download := serve_download r;
  item_update := λ _ _, Ok true |}.

(** One point layer with photos, one table without attachments. *)
Definition points : Layer := mk_layer "points" true.
Definition visits : Layer := mk_layer "visits" false.

Definition survey : Item := mk_item "survey" [points] [visits].

Definition remote : Remote := mk_remote "form1" survey
  [("points",
    [ mk_rec (mk_feature 7 1686830405123) [(mk_att 1 "Photo 1.jpg", "jpeg-7-1")];
      mk_rec (mk_feature 5 1686744005000)
        [(mk_att 1 "Photo 1.jpg", "jpeg-5-1"); (mk_att 2 "sketch.png", "png-5-2")];
      mk_rec (mk_feature 8 1686830405999) [] ]);
   ("visits", [ mk_rec (mk_feature 1 1686744005000) [] ])]
  [mk_item "survey" [] []; mk_item "survey" [points] []].

Definition fresh : World := mk_world ∅ ∅ [].

Definition photos : GetPhotos := mk_GetPhotos "form1" "./photos/" (Some "team").

Definition row5 : LogRow :=
  mk_row 5 "14/06/2023 12:00:05" "form1" "./photos/team/23-06-14".

(** A machine whose log holds objectid 5 only. *)
Definition synced : World :=
  mk_world {[ "./photos/log_photos.json" := JsonLog [row5] ]} ∅ [].

(** A machine on which the renamed photo of record 7 is already there. *)
Definition taken : World :=
  mk_world {[ "./photos/team/23-06-15/Photo 1-oid_7.jpg" := Blob "old" ]} ∅ [].

Definition data : GetData := mk_GetData "form1" (Some "PRJ_") "out" (Some survey).

Definition reference : ArcGIS := sdk remote.

(** What [query(as_df=True)] returns for the points layer. *)
Definition points_df : DataFrame :=
  mk_df ["objectid"; "created_date"]
    [["7"; "1686830405123"]; ["5"; "1686744005000"]; ["8"; "1686830405999"]].

End Portal.

(** ** Vocabulary of the statements *)

(** The path [get_main_layer] and [get_table] save to. *)
Definition csv_path (self : GetData) (file_name : string) : string :=
  os_path_join (gd_save_directory self)
    (default "" (gd_prefix self) +:+ file_name +:+ ".csv").

(** The world after [to_csv] wrote [df] to [p]. *)
Definition csv_written (w : World) (p : string) (df : DataFrame) : World :=
  mk_world (<[p := CsvFile (mk_csv false "," ";") df]> (w_files w)) (w_dirs w)
           (w_trace w ++ [EvToCsv p (mk_csv false "," ";") df]).

(** The world after some more events, files and directories unchanged. *)
Definition logged (w : World) (t : list Event) : World :=
  mk_world (w_files w) (w_dirs w) (w_trace w ++ t).

(** [p in s]: the pattern occurs somewhere in the string. *)
Fixpoint occurs (p s : string) : bool :=
  startswith p s
  || match s with
     | EmptyString => false
     | String _ s' => occurs p s'
     end.

(** The world after [download] wrote [data] at [p]. *)
Definition downloaded (w : World) (p data : string) : World :=
  mk_world (<[p := Blob data]> (w_files w)) (w_dirs w) (w_trace w ++ [EvDownload p]).

(** The queries a trace records, in order. *)
Definition queries (t : list Event) : list (Layer * QueryArgs) :=
  omap (λ e, match e with EvQuery fs q => Some (fs, q) | _ => None end) t.

(** The [to_json] writes a trace records, in order. *)
Definition json_writes (t : list Event) : list (string * list LogRow) :=
  omap (λ e, match e with EvToJson p rows => Some (p, rows) | _ => None end) t.

(** The paths the download loop acts on: directories it creates (with
    their ancestors), files it downloads, both ends of its renames. *)
Definition event_paths (e : Event) : list string :=
  match e with
  | EvMakedirs p => p :: ancestors p
  | EvDownload p => [p]
  | EvRename src dst => [src; dst]
  | _ => []
  end.

Definition photo_paths (t : list Event) : list string := t ≫= event_paths.

(** The control dict holding the given rows. *)
Definition control_of (rows : list RawRow) : Control :=
  mk_control (raw_objectid <$> rows) (raw_created_date <$> rows)
             (raw_id_form <$> rows) (raw_local <$> rows).

(** A computation keeps a relation between the world it starts from and the
    world it leaves, whether it returns or raises. *)
Definition preserves {A} (R : World → World → Prop) (m : M A) : Prop :=
  ∀ w, R w (m w).1.

(** Nothing new was queried. *)
Definition same_queries (w w' : World) : Prop :=
  queries (w_trace w') = queries (w_trace w).

(** The trace grew, and a path that is none of the photo paths of the new
    events is as it was. *)
Definition frame (p : string) (w w' : World) : Prop :=
  ∃ t, w_trace w' = w_trace w ++ t
       ∧ (p ∉ photo_paths t →
          w_files w' !! p = w_files w !! p ∧ (p ∈ w_dirs w' ↔ p ∈ w_dirs w)).

(** The world after [persist_log] wrote [rows] to the log. *)
Definition written (w : World) (p : string) (rows : list LogRow) : World :=
  mk_world (<[p := JsonLog rows]> (w_files w)) (w_dirs w)
           (w_trace w ++ [EvToJson p rows; EvPrint MsgAllDownloaded]).

(** The row a feature is logged as, before and after the date is
    formatted. *)
Definition raw_entry_of (self : GetPhotos) (f : Feature) (r : RawRow) : Prop :=
  raw_objectid r = f_objectid f
  ∧ raw_created_date r = f_created_date f
  ∧ raw_id_form r = gp_id_form self
  ∧ final_folder_of self f = Ok (raw_local r).

Definition entry_of (self : GetPhotos) (f : Feature) (row : LogRow) : Prop :=
  objectid row = f_objectid f
  ∧ created_date row = format_created_date (f_created_date f)
  ∧ id_form row = gp_id_form self
  ∧ final_folder_of self f = Ok (local row).

(** The layers and tables [get_photos] queries. *)
Definition with_attachments (survey : Item) : list Layer :=
  filter (λ fs, hasAttachments fs = true) (layers survey ++ tables survey).

(** Text against a pattern in which [d] stands for a decimal digit and
    every other character for itself. *)
Definition is_digit (c : ascii) : bool :=
  (48 <=? nat_of_ascii c)%nat && (nat_of_ascii c <=? 57)%nat.

Fixpoint has_shape (pattern s : string) : bool :=
  match pattern, s with
  | EmptyString, EmptyString => true
  | String p pattern', String c s' =>
      (if decide (p = "d"%char) then is_digit c else bool_decide (p = c))
      && has_shape pattern' s'
  | _, _ => false
  end.

(** A check over the [n] integers from [a] on. *)
Fixpoint all_from (P : Z → bool) (a : Z) (n : nat) : bool :=
  match n with
  | O => true
  | S n' => P a && all_from P (a + 1) n'
  end.

(** The year within a 400-year era, as [civil_from_days] computes it from
    the day of the era. *)
Definition year_of_era (doe : Z) : Z :=
  let yoe := (doe - doe / 1460 + doe / 36524 - doe / 146096) / 365 in
  let doy := doe - (365 * yoe + yoe / 4 - yoe / 100) in
  let mp := (5 * doy + 2) / 153 in
  let m := if mp <? 10 then mp + 3 else mp - 9 in
  yoe + (if m <=? 2 then 1 else 0).

(** ** Further vocabulary: constructors, traces, scenarios *)

(** [GetPhotos.__init__]: the three attributes, no connection yet. *)
Definition GetPhotos_init (id_form save_directory : string)
    (folder_name : option string) : GetPhotos :=
  mk_GetPhotos id_form save_directory folder_name.

(** The constructor called with the form id alone:
    [save_directory='./photos/'] and [folder_name=None]. *)
Definition GetPhotos_default (id_form : string) : GetPhotos :=
  GetPhotos_init id_form "./photos/" None.

(** The portal updates, the downloads and the renames a trace records. *)
Definition updates (t : list Event) : list (Item * string) :=
  omap (λ e, match e with EvUpdate it d => Some (it, d) | _ => None end) t.

Definition downloads (t : list Event) : list string :=
  omap (λ e, match e with EvDownload p => Some p | _ => None end) t.

Definition renames (t : list Event) : list (string * string) :=
  omap (λ e, match e with EvRename a b => Some (a, b) | _ => None end) t.

(** Events that leave the local files alone. *)
Definition is_remote_or_print (e : Event) : bool :=
  match e with
  | EvPrint _ | EvUpdate _ _ | EvQuery _ _ => true
  | _ => false
  end.

Module Cases.

(** A portal nobody can log into. *)
Definition offline : ArcGIS := {|
  GIS := Raise (SDKError "login");
  content_get := λ _, Ok None;
  content_search := λ _ _, Ok [];
  query_as_df := λ _, Ok (mk_df [] []);
  query := λ _ _, Ok [];
  attachments_get_list := λ _ _, Ok [];
  attachments_download := λ _ _ _, Raise (SDKError "offline");
  item_update := λ _ _, Ok false |}.

(** A machine whose log already holds the three records of the reference
    portal. *)
Definition up_to_date : World :=
  mk_world
    {[ "./photos/log_photos.json" :=
         JsonLog [Portal.row5;
                  mk_row 7 "15/06/2023 12:00:05" "form1" "./photos/team/23-06-15";
                  mk_row 8 "15/06/2023 12:00:05" "form1" "./photos/team/23-06-15"] ]}
    ∅ [].

(** A form without any record. *)
Definition empty_remote : Portal.Remote :=
  Portal.mk_remote "form1" Portal.survey [("points", []); ("visits", [])] [].

End Cases.

(** Two worlds agree on what a projection reads off the trace. *)
Definition same_proj {X} (g : Event → option X) (w w' : World) : Prop :=
  omap g (w_trace w') = omap g (w_trace w).

Definition json_event (e : Event) : option (string * list LogRow) :=
  match e with EvToJson p rows => Some (p, rows) | _ => None end.

Definition download_event (e : Event) : option string :=
  match e with EvDownload p => Some p | _ => None end.

(** No directory was removed. *)
Definition dirs_kept (w w' : World) : Prop := w_dirs w ⊆ w_dirs w'.

Section Saved.
Context `{sdk : ArcGIS}.

(** The attachment was fetched and written under the folder with its own
    name. *)
Definition attachment_saved (fs : Layer) (oid : Z) (folder : string)
    (a : AttachmentInfo) (p : string) : Prop :=
  ∃ name data,
    attachments_download fs oid (att_id a) = Ok (name, data)
    ∧ p = os_path_join folder name.

(** The attachments listed for the feature were saved, in order, in the
    feature's folder. *)
Definition feature_saved (self : GetPhotos) (fs : Layer) (f : Feature)
    (ps : list string) : Prop :=
  ∃ folder atts,
    final_folder_of self f = Ok folder
    ∧ attachments_get_list fs (f_objectid f) = Ok atts
    ∧ Forall2 (attachment_saved fs (f_objectid f) folder) atts ps.

(** The features answered for the layer were saved, in order. *)
Definition layer_saved (self : GetPhotos) (mo : number) (fs : Layer)
    (pss : list (list string)) : Prop :=
  ∃ feats,
    query fs (query_args mo) = Ok feats
    ∧ Forall2 (feature_saved self fs) feats pss.

End Saved.

(** What the loop over the layers does when every answer is empty: one
    query and one message per attachment-enabled layer. *)
Definition no_news (mo : number) (fss : list Layer) : list Event :=
  fss ≫= λ fs, [EvQuery fs (query_args mo); EvPrint MsgNoNewPhotos].

(** [os.path.dirname(p)] (posixpath): everything before the last
    separator, without trailing separators unless it consists of
    separators only. *)
Fixpoint has_sep (s : string) : bool :=
  match s with
  | EmptyString => false
  | String c s' => if decide (c = "/"%char) then true else has_sep s'
  end.

Fixpoint upto_last_sep (s : string) : string :=
  match s with
  | EmptyString => EmptyString
  | String c s' =>
      if has_sep s then
        (if has_sep s' then String c (upto_last_sep s') else String c EmptyString)
      else EmptyString
  end.

Fixpoint rstrip_sep (s : string) : string :=
  match s with
  | EmptyString => EmptyString
  | String c s' =>
      if decide (c = "/"%char)
      then (if decide (rstrip_sep s' = "") then EmptyString else String c (rstrip_sep s'))
      else String c (rstrip_sep s')
  end.

Definition os_path_dirname (p : string) : string :=
  let head := upto_last_sep p in
  if decide (rstrip_sep head = "") then head else rstrip_sep head.

Module Machines.

(** A machine on which a file named like the second attachment of record 5
    is already in that record's folder. *)
Definition sketched : World :=
  mk_world {[ "./photos/team/23-06-14/sketch.png" := Blob "old" ]}
           {[ "./photos/team/23-06-14" ]} [].

(** Two records of the same day, each with an attachment of the same
    name. *)
Definition twins : Portal.Remote :=
  Portal.mk_remote "form1" Portal.survey
    [("points",
      [ Portal.mk_rec (mk_feature 5 1686744005000) [(mk_att 1 "sketch.png", "png-5")];
        Portal.mk_rec (mk_feature 6 1686744009000) [(mk_att 1 "sketch.png", "png-6")] ]);
     ("visits", [])]
    [].

(** A machine on which the folder of 15 June 2023 exists and is empty. *)
Definition foldered : World :=
  mk_world ∅ {[ "./photos/team/23-06-15" ]} [].

End Machines.

(** ** Sanity checks of the embedding on concrete values *)

Example replace_jpg :
  replace "photos/a/23-06-15/Photo 1.jpg" ".jpg" "-oid_7.jpg"
  = "photos/a/23-06-15/Photo 1-oid_7.jpg".
Proof. reflexivity. Qed.

Example join_examples :
  os_path_join "./photos/" "log_photos.json" = "./photos/log_photos.json"
  ∧ os_path_join "out" "x.csv" = "out/x.csv"
  ∧ os_path_join "out" "/abs/x.csv" = "/abs/x.csv"
  ∧ os_path_join "" "x.csv" = "x.csv".
Proof. repeat split. Qed.

Example py_index_examples :
  py_index [10; 20; 30] 0 = Ok 10 ∧ py_index [10; 20; 30] (-1) = Ok 30
  ∧ py_index [10; 20; 30] 3 = Raise IndexError
  ∧ py_index [10; 20; 30] (-4) = Raise IndexError.
Proof. repeat split. Qed.

Example strftime_log :
  strftime "%d/%m/%Y %H:%M:%S" (to_datetime_ms 1686830405123) = "15/06/2023 12:00:05".
Proof. vm_compute. reflexivity. Qed.

Example strftime_folder :
  strftime "%y-%m-%d" (utcfromtimestamp (1686830405123 / 1000)) = "23-06-15"
  ∧ strftime "%y-%m-%d" (utcfromtimestamp (951782400000 / 1000)) = "00-02-29"
  ∧ strftime "%y-%m-%d" (utcfromtimestamp 0) = "70-01-01".
Proof. vm_compute. repeat split. Qed.

Example ancestors_example :
  ancestors "./photos/team/23-06-15" = ["."; "./photos"; "./photos/team"].
Proof. reflexivity. Qed.

(** ** Running computations *)

Lemma bind_run {A B} (m : M A) (f : A → M B) (w : World) :
  (m ≫= f) w = match m w with
                | (w', Ok a) => f a w'
                | (w', Raise e) => (w', Raise e)
                end.
Proof. reflexivity. Qed.

Lemma lift_run {A} (r : res A) (w : World) : lift r w = (w, r).
Proof. reflexivity. Qed.

Lemma ret_run {A} (a : A) (w : World) : (mret a : M A) w = (w, Ok a).
Proof. reflexivity. Qed.

Lemma emit_run (e : Event) (w : World) : emit e w = (logged w [e], Ok tt).
Proof. reflexivity. Qed.

Lemma print_run (m : Msg) (w : World) : print m w = (logged w [EvPrint m], Ok tt).
Proof. reflexivity. Qed.

Lemma logged_logged (w : World) (t1 t2 : list Event) :
  logged (logged w t1) t2 = logged w (t1 ++ t2).
Proof. unfold logged. simpl. by rewrite <- app_assoc. Qed.

Lemma logged_nil (w : World) : logged w [] = w.
Proof. destruct w. unfold logged. simpl. by rewrite app_nil_r. Qed.

Ltac run :=
  repeat (rewrite ?bind_run, ?lift_run, ?ret_run, ?emit_run, ?print_run,
            ?logged_logged; simpl).

(** ** Python list indexing *)

Lemma py_index_out_of_range {A} (l : list A) (i : Z) :
  i < - Z.of_nat (length l) ∨ Z.of_nat (length l) ≤ i →
  py_index l i = Raise IndexError.
Proof.
  intros Hi. unfold py_index.
  destruct (Z.leb_spec 0 i) as [H0|H0].
  - destruct Hi as [Hi|Hi]; [lia|].
    destruct (Z.ltb_spec i (Z.of_nat (length l))); [lia|].
    by rewrite andb_false_r.
  - destruct Hi as [Hi|Hi]; [|lia].
    destruct (Z.leb_spec 0 (Z.of_nat (length l) + i)); [lia|]. done.
Qed.

Lemma py_index_nil {A} (i : Z) : py_index (@nil A) i = Raise IndexError.
Proof. apply py_index_out_of_range. simpl. lia. Qed.

Lemma py_index_head {A} (x : A) (l : list A) : py_index (x :: l) 0 = Ok x.
Proof.
  unfold py_index. simpl.
  destruct (Z.ltb_spec 0 (Z.pos (Pos.of_succ_nat (length l)))); [done|lia].
Qed.

(** ** GetData *)

Section GetDataFacts.
Context `{sdk : ArcGIS}.

(** C6 (as amended).  With [n] layers, a [layer_position] that is at least
    [n] or below [-n] makes [get_main_layer] raise IndexError (the failure
    the specification calls NotFoundError): no data frame is returned and
    nothing is written.  [get_table] does the same over the tables.  A
    position between [-n] and [-1] is not out of range for the code: it
    counts from the end. *)
Theorem C6_position_out_of_range
    (self : GetData) (survey : Item) (position : Z) (save : bool)
    (file_name : option string) (w : World) :
  gd_survey_by_id self = Some survey →
  (position < - Z.of_nat (length (layers survey))
   ∨ Z.of_nat (length (layers survey)) ≤ position
     → get_main_layer self position save file_name w = (w, Raise IndexError))
  ∧ (position < - Z.of_nat (length (tables survey))
     ∨ Z.of_nat (length (tables survey)) ≤ position
     → get_table self position save file_name w = (w, Raise IndexError)).
Proof.
  intros Hs. split; intros Hpos.
  - unfold get_main_layer. rewrite Hs. run.
    by rewrite (py_index_out_of_range _ _ Hpos).
  - unfold get_table. rewrite Hs. run.
    by rewrite (py_index_out_of_range _ _ Hpos).
Qed.

Lemma os_path_join_plain (a b : string) :
  a ≠ "" → endswith_sep a = false → startswith "/" b = false →
  os_path_join a b = a +:+ "/" +:+ b.
Proof.
  intros Ha He Hb. unfold os_path_join. rewrite Hb, He.
  by destruct (decide (a = "")).
Qed.

(** C9.  With [save=True] and a file name, [get_main_layer] and [get_table]
    write the queried frame to [os.path.join(save_directory, prefix +
    file_name + '.csv')] (no prefix when it is [None]) with [index=False],
    [decimal=','] and [sep=';'], in one write, and return that same frame.
    For a non-empty directory without a trailing separator and a relative
    name, the path reads [save_directory/prefixfile_name.csv]. *)
Theorem C9_save_csv
    (self : GetData) (survey : Item) (position : Z) (file_name : string)
    (fs : Layer) (df : DataFrame) (w : World) :
  gd_survey_by_id self = Some survey →
  query_as_df fs = Ok df →
  (py_index (layers survey) position = Ok fs →
     get_main_layer self position true (Some file_name) w
     = (csv_written w (csv_path self file_name) df, Ok df))
  ∧ (py_index (tables survey) position = Ok fs →
     get_table self position true (Some file_name) w
     = (csv_written w (csv_path self file_name) df, Ok df))
  ∧ (gd_save_directory self ≠ "" →
     endswith_sep (gd_save_directory self) = false →
     startswith "/" (default "" (gd_prefix self) +:+ file_name +:+ ".csv") = false →
     csv_path self file_name
     = gd_save_directory self +:+ "/" +:+ default "" (gd_prefix self)
         +:+ file_name +:+ ".csv").
Proof.
  intros Hs Hq. split; [|split].
  - intros Hi. unfold get_main_layer. rewrite Hs. run. rewrite Hi. run.
    rewrite Hq. run. unfold save_frame, csv_path.
    destruct (gd_prefix self); reflexivity.
  - intros Hi. unfold get_table. rewrite Hs. run. rewrite Hi. run.
    rewrite Hq. run. unfold save_frame, csv_path.
    destruct (gd_prefix self); reflexivity.
  - intros Hne He Hb. unfold csv_path. by apply os_path_join_plain.
Qed.

End GetDataFacts.

(** ** UploadToPortal *)

Section UploadFacts.
Context `{sdk : ArcGIS}.

(** C7.  After a successful login, [upload_to_portal] raises IndexError
    (the failure the specification calls NotFoundError) when the content
    search returns no item; otherwise it updates the first item of the
    search result, and only that one, from
    [os.path.join(upload_directory, file_name + '.csv')]. *)
Theorem C7_upload_first_match
    (upload_directory file_name file_format : string) (found : list Item)
    (w : World) :
  GIS = Ok tt →
  content_search file_name file_format = Ok found →
  upload_to_portal upload_directory file_name file_format w =
    match found with
    | [] => (w, Raise IndexError)
    | data_portal :: _ =>
        let file := os_path_join upload_directory (file_name +:+ ".csv") in
        match item_update data_portal file with
        | Ok true =>
            (logged w [EvUpdate data_portal file; EvPrint (MsgUpdated file_name)], Ok tt)
        | Ok false =>
            (logged w [EvUpdate data_portal file; EvPrint (MsgNotSaved file_name)], Ok tt)
        | Raise e => (logged w [EvUpdate data_portal file], Raise e)
        end
    end.
Proof.
  intros Hgis Hsearch. unfold upload_to_portal, connect_to_gis.
  rewrite Hgis. run. rewrite Hsearch. run.
  destruct found as [|data_portal rest].
  - by rewrite py_index_nil.
  - rewrite py_index_head. unfold update. run.
    destruct (item_update _ _) as [[]|e]; run; reflexivity.
Qed.

End UploadFacts.

(** ** Renaming a downloaded attachment *)

Lemma append_cons (c : ascii) (s t : string) : String c s +:+ t = String c (s +:+ t).
Proof. reflexivity. Qed.

Lemma append_empty_l (t : string) : "" +:+ t = t.
Proof. reflexivity. Qed.

Lemma append_empty_r (s : string) : s +:+ "" = s.
Proof. induction s as [|c s IH]; [done|]. by rewrite append_cons, IH. Qed.

(** No occurrence of [.jpg] straddles the end of the stem: the pattern has
    its only dot in front. *)
Lemma jpg_no_cross (c : ascii) (s : string) :
  startswith ".jpg" (String c s) = false →
  startswith ".jpg" (String c s +:+ ".jpg") = false.
Proof.
  destruct s as [|c1 [|c2 [|c3 s]]]; rewrite ?append_cons, ?append_empty_l; simpl;
    repeat (case_decide; simpl; try done); subst; try done.
Qed.

Lemma replace_jpg_suffix (new stem : string) :
  occurs ".jpg" stem = false →
  replace (stem +:+ ".jpg") ".jpg" new = stem +:+ new.
Proof.
  unfold replace. induction stem as [|c stem IH]; intros Hocc.
  - rewrite !append_empty_l. simpl. by rewrite append_empty_r.
  - cbn [occurs] in Hocc. apply orb_false_iff in Hocc as [Hhere Hrest].
    pose proof (jpg_no_cross _ _ Hhere) as Hno.
    rewrite !append_cons in *.
    cbn [replace_go]. rewrite Hno. f_equal. by apply IH.
Qed.

Lemma replace_absent (old new s : string) :
  occurs old s = false → replace s old new = s.
Proof.
  unfold replace. induction s as [|c s IH]; intros Hocc; [done|].
  cbn [occurs] in Hocc. apply orb_false_iff in Hocc as [Hhere Hrest].
  cbn [replace_go]. rewrite Hhere. f_equal. by apply IH.
Qed.

Lemma final_name_jpg (stem : string) (oid : Z) :
  occurs ".jpg" stem = false →
  final_name (stem +:+ ".jpg") oid = stem +:+ "-oid_" +:+ pretty oid +:+ ".jpg".
Proof. intros H. unfold final_name. by rewrite replace_jpg_suffix. Qed.

Lemma final_name_differs (stem : string) (oid : Z) :
  stem +:+ "-oid_" +:+ pretty oid +:+ ".jpg" ≠ stem +:+ ".jpg".
Proof. intros H. apply (inj (String.app stem)) in H. discriminate H. Qed.

Lemma exists_in_logged (w : World) (t : list Event) (p : string) :
  exists_in (logged w t) p = exists_in w p.
Proof. reflexivity. Qed.

Lemma exists_in_downloaded_ne (w : World) (p q data : string) :
  p ≠ q → exists_in (downloaded w p data) q = exists_in w q.
Proof.
  intros Hne. unfold exists_in, downloaded. simpl. by rewrite lookup_insert_ne.
Qed.

Lemma exists_in_downloaded_mono (w : World) (p q data : string) :
  exists_in w q = true → exists_in (downloaded w p data) q = true.
Proof.
  unfold exists_in, downloaded. simpl. intros H.
  apply orb_true_iff in H as [H|H]; apply orb_true_iff; [left|by right].
  apply bool_decide_eq_true in H. apply bool_decide_eq_true.
  rewrite lookup_insert_is_Some. destruct (decide (p = q)); [by left|by right].
Qed.

Section AttachmentFacts.
Context `{sdk : ArcGIS}.

Lemma download_run (fs : Layer) (oid aid : Z) (save_path name data : string) (w : World) :
  attachments_download fs oid aid = Ok (name, data) →
  download fs oid aid save_path w
  = (downloaded w (os_path_join save_path name) data, Ok [os_path_join save_path name]).
Proof. intros H. unfold download. rewrite bind_run, lift_run, H. reflexivity. Qed.

(** The [.jpg] case of the renaming.  When the downloaded path ends in
    [.jpg], has no other occurrence of [.jpg], and no file or directory has
    the new name yet, the file is renamed to the same path with
    [-oid_{objectid}] inserted right before [.jpg]: the downloaded name
    disappears and the new name holds the downloaded bytes. *)
Theorem C4_rename_jpg
    (fs : Layer) (object_oid : Z) (final_folder : string) (a : AttachmentInfo)
    (name data stem : string) (w : World) :
  attachments_download fs object_oid (att_id a) = Ok (name, data) →
  os_path_join final_folder name = stem +:+ ".jpg" →
  occurs ".jpg" stem = false →
  exists_in w (stem +:+ "-oid_" +:+ pretty object_oid +:+ ".jpg") = false →
  attachment_body fs object_oid final_folder a w
  = (mk_world
       (<[stem +:+ "-oid_" +:+ pretty object_oid +:+ ".jpg" := Blob data]>
          (delete (stem +:+ ".jpg") (w_files w)))
       (w_dirs w)
       (w_trace w ++ [EvDownload (stem +:+ ".jpg");
                      EvRename (stem +:+ ".jpg")
                        (stem +:+ "-oid_" +:+ pretty object_oid +:+ ".jpg")]),
     Ok tt).
Proof.
  intros Hd Hpath Hocc Hfree. unfold attachment_body.
  rewrite bind_run, (download_run _ _ _ _ _ _ _ Hd), Hpath.
  rewrite bind_run, lift_run, py_index_head, bind_run.
  rewrite (final_name_jpg _ _ Hocc).
  unfold os_path_exists.
  rewrite exists_in_downloaded_ne, Hfree
    by (intros E; by apply (final_name_differs stem object_oid)).
  cbn [negb]. unfold os_rename, downloaded. cbn [w_files w_dirs w_trace].
  rewrite lookup_insert_eq, delete_insert_eq, <- app_assoc. reflexivity.
Qed.

(** The side of C5 the code keeps.  When the rename target already exists
    as the attachment is downloaded, the run only adds the downloaded file
    under its original name and prints the warning: there is no rename, and
    a target other than the downloaded path keeps the content it had. *)
Theorem C5_existing_target_kept
    (fs : Layer) (object_oid : Z) (final_folder : string) (a : AttachmentInfo)
    (name data : string) (w : World) :
  attachments_download fs object_oid (att_id a) = Ok (name, data) →
  exists_in w (final_name (os_path_join final_folder name) object_oid) = true →
  attachment_body fs object_oid final_folder a w
  = (logged (downloaded w (os_path_join final_folder name) data)
       [EvPrint (MsgFileExists object_oid
                   (final_name (os_path_join final_folder name) object_oid))],
     Ok tt)
  ∧ (final_name (os_path_join final_folder name) object_oid
       ≠ os_path_join final_folder name →
     w_files (downloaded w (os_path_join final_folder name) data)
       !! final_name (os_path_join final_folder name) object_oid
     = w_files w !! final_name (os_path_join final_folder name) object_oid).
Proof.
  intros Hd Hex. split.
  - unfold attachment_body.
    rewrite bind_run, (download_run _ _ _ _ _ _ _ Hd).
    rewrite bind_run, lift_run, py_index_head, bind_run.
    unfold os_path_exists.
    rewrite (exists_in_downloaded_mono _ _ _ _ Hex). reflexivity.
  - intros Hne. unfold downloaded. simpl. by rewrite lookup_insert_ne.
Qed.

End AttachmentFacts.

(** ** Relations kept by the download loop *)

Section Preserve.
Context `{sdk : ArcGIS}.
Variable R : World → World → Prop.
Hypothesis R_refl : ∀ w, R w w.
Hypothesis R_trans : ∀ a b c, R a b → R b c → R a c.
Hypothesis R_print : ∀ w m, R w (logged w [EvPrint m]).
Hypothesis R_makedirs : ∀ w p, R w (os_makedirs p w).1.
Hypothesis R_download : ∀ w p data, R w (downloaded w p data).
Hypothesis R_rename : ∀ w src dst, R w (os_rename src dst w).1.

Lemma preserves_ret {A} (a : A) : preserves R (mret a : M A).
Proof. intros w. apply R_refl. Qed.

Lemma preserves_lift {A} (r : res A) : preserves R (lift r).
Proof. intros w. apply R_refl. Qed.

Lemma preserves_bind {A B} (m : M A) (f : A → M B) :
  preserves R m → (∀ a, preserves R (f a)) → preserves R (m ≫= f).
Proof.
  intros Hm Hf w. rewrite bind_run. specialize (Hm w).
  destruct (m w) as [w1 [a|e]]; simpl in *; [|done].
  eapply R_trans; [exact Hm|apply Hf].
Qed.

Lemma preserves_print (m : Msg) : preserves R (print m).
Proof. intros w. apply R_print. Qed.

Lemma preserves_exists (p : string) : preserves R (os_path_exists p).
Proof. intros w. apply R_refl. Qed.

Lemma preserves_download (fs : Layer) (oid aid : Z) (save_path : string) :
  preserves R (download fs oid aid save_path).
Proof.
  intros w. unfold download. rewrite bind_run, lift_run.
  destruct (attachments_download fs oid aid) as [[name data]|e]; simpl;
    [apply R_download|apply R_refl].
Qed.

Lemma preserves_attachment_body (fs : Layer) (oid : Z) (folder : string)
    (a : AttachmentInfo) :
  preserves R (attachment_body fs oid folder a).
Proof.
  unfold attachment_body.
  apply preserves_bind; [apply preserves_download|intros paths].
  apply preserves_bind; [apply preserves_lift|intros path0].
  apply preserves_bind; [apply preserves_exists|intros ex].
  destruct ex; simpl; [apply preserves_print|intros w; apply R_rename].
Qed.

Lemma preserves_attachments_loop (fs : Layer) (oid : Z) (folder : string)
    (atts : list AttachmentInfo) :
  preserves R (attachments_loop fs oid folder atts).
Proof.
  induction atts as [|a rest IH]; simpl; [apply preserves_ret|].
  apply preserves_bind; [apply preserves_attachment_body|by intros _].
Qed.

Lemma preserves_feature_body (self : GetPhotos) (fs : Layer) (n : nat)
    (nc : Control) (indice : nat) (feature : Feature) :
  preserves R (feature_body self fs n nc indice feature).
Proof.
  unfold feature_body.
  apply preserves_bind; [apply preserves_print|intros _].
  apply preserves_bind; [apply preserves_lift|intros folder].
  apply preserves_bind; [apply preserves_exists|intros ex].
  apply preserves_bind.
  { destruct ex; simpl; [apply preserves_ret|intros w; apply R_makedirs]. }
  intros _. apply preserves_bind; [apply preserves_lift|intros atts].
  apply preserves_bind; [|intros _; apply preserves_ret].
  destruct (0 <? length atts)%nat;
    [apply preserves_attachments_loop|apply preserves_ret].
Qed.

Lemma preserves_features_loop (self : GetPhotos) (fs : Layer) (n : nat)
    (features : list Feature) (nc : Control) (indice : nat) :
  preserves R (features_loop self fs n nc indice features).
Proof.
  revert nc indice. induction features as [|f rest IH]; intros nc indice; simpl;
    [apply preserves_ret|].
  apply preserves_bind; [apply preserves_feature_body|intros nc'; apply IH].
Qed.

Hypothesis R_query : ∀ w fs q, R w (logged w [EvQuery fs q]).

Lemma preserves_layer_body (self : GetPhotos) (mo : number) (nc : Control)
    (fs : Layer) :
  preserves R (layer_body self mo nc fs).
Proof.
  unfold layer_body. destruct (hasAttachments fs); [|apply preserves_ret].
  apply preserves_bind.
  { unfold fs_query. apply preserves_bind; [intros w; apply R_query|].
    intros _. apply preserves_lift. }
  intros feats. destruct (length feats =? 0)%nat.
  - apply preserves_bind; [apply preserves_print|intros _; apply preserves_ret].
  - apply preserves_features_loop.
Qed.

Lemma preserves_layers_loop (self : GetPhotos) (mo : number)
    (rel_fs : list Layer) (nc : Control) :
  preserves R (layers_loop self mo nc rel_fs).
Proof.
  revert nc. induction rel_fs as [|fs rest IH]; intros nc; simpl;
    [apply preserves_ret|].
  apply preserves_bind; [apply preserves_layer_body|intros nc'; apply IH].
Qed.

Lemma preserves_load_cursor (log_file : string) : preserves R (load_cursor log_file).
Proof.
  unfold load_cursor. apply preserves_bind; [apply preserves_exists|intros ex].
  destruct ex.
  - apply preserves_bind; [|intros rows; apply preserves_ret].
    intros w. unfold read_json. destruct (w_files w !! log_file) as [[]|]; apply R_refl.
  - apply preserves_bind; [apply preserves_print|intros _; apply preserves_ret].
Qed.

End Preserve.

(** *** The two instances: queries and the frame of a path *)

Lemma queries_app (t1 t2 : list Event) : queries (t1 ++ t2) = queries t1 ++ queries t2.
Proof. apply omap_app. Qed.

Lemma photo_paths_app (t1 t2 : list Event) :
  photo_paths (t1 ++ t2) = photo_paths t1 ++ photo_paths t2.
Proof. apply bind_app. Qed.

Lemma same_queries_refl (w : World) : same_queries w w.
Proof. reflexivity. Qed.

Lemma same_queries_trans (a b c : World) :
  same_queries a b → same_queries b c → same_queries a c.
Proof. unfold same_queries. congruence. Qed.

Lemma same_queries_logged (w : World) (e : Event) :
  queries [e] = [] → same_queries w (logged w [e]).
Proof.
  intros He. unfold same_queries, logged. simpl.
  by rewrite queries_app, He, app_nil_r.
Qed.

Lemma same_queries_rename (w : World) (src dst : string) :
  same_queries w (os_rename src dst w).1.
Proof.
  unfold os_rename. destruct (w_files w !! src); [|reflexivity].
  unfold same_queries. simpl. by rewrite queries_app, app_nil_r.
Qed.

Lemma same_queries_makedirs (w : World) (p : string) :
  same_queries w (os_makedirs p w).1.
Proof. unfold same_queries. simpl. by rewrite queries_app, app_nil_r. Qed.

Lemma same_queries_downloaded (w : World) (p data : string) :
  same_queries w (downloaded w p data).
Proof. unfold same_queries. simpl. by rewrite queries_app, app_nil_r. Qed.

Lemma frame_refl (p : string) (w : World) : frame p w w.
Proof. exists []. by rewrite app_nil_r. Qed.

Lemma frame_trans (p : string) (a b c : World) :
  frame p a b → frame p b c → frame p a c.
Proof.
  intros (t1 & Ht1 & H1) (t2 & Ht2 & H2). exists (t1 ++ t2). split.
  - by rewrite Ht2, Ht1, app_assoc.
  - rewrite photo_paths_app, not_elem_of_app. intros [Hn1 Hn2].
    destruct (H1 Hn1) as [Hf1 Hd1], (H2 Hn2) as [Hf2 Hd2].
    split; [congruence|tauto].
Qed.

Lemma frame_logged (p : string) (w : World) (e : Event) : frame p w (logged w [e]).
Proof. exists [e]. done. Qed.

Lemma frame_makedirs (p : string) (w : World) (q : string) :
  frame p w (os_makedirs q w).1.
Proof.
  exists [EvMakedirs q]. split; [done|]. simpl.
  unfold photo_paths. simpl. rewrite app_nil_r. intros Hp. split; [done|].
  apply not_elem_of_cons in Hp as [Hq Hanc].
  rewrite !elem_of_union, elem_of_singleton, elem_of_list_to_set. tauto.
Qed.

Lemma frame_downloaded (p : string) (w : World) (q data : string) :
  frame p w (downloaded w q data).
Proof.
  exists [EvDownload q]. split; [done|]. unfold photo_paths. simpl.
  intros Hp. split; [|done]. apply lookup_insert_ne. set_solver.
Qed.

Lemma frame_rename (p : string) (w : World) (src dst : string) :
  frame p w (os_rename src dst w).1.
Proof.
  unfold os_rename. destruct (w_files w !! src) as [f|]; [|apply frame_refl].
  exists [EvRename src dst]. split; [done|]. unfold photo_paths. simpl.
  intros Hp. split; [|done].
  rewrite lookup_insert_ne, lookup_delete_ne by set_solver. done.
Qed.

Section LoopFacts.
Context `{sdk : ArcGIS}.

Lemma features_loop_same_queries (self : GetPhotos) (fs : Layer) (n : nat)
    (features : list Feature) (nc : Control) (indice : nat) :
  preserves same_queries (features_loop self fs n nc indice features).
Proof.
  apply preserves_features_loop;
    eauto using same_queries_refl, same_queries_trans, same_queries_logged,
      same_queries_makedirs, same_queries_downloaded, same_queries_rename.
Qed.

Lemma layers_loop_frame (p : string) (self : GetPhotos) (mo : number)
    (rel_fs : list Layer) (nc : Control) :
  preserves (frame p) (layers_loop self mo nc rel_fs).
Proof.
  apply preserves_layers_loop;
    eauto using frame_refl, frame_trans, frame_logged, frame_makedirs,
      frame_downloaded, frame_rename.
Qed.

Lemma load_cursor_frame (p log_file : string) :
  preserves (frame p) (load_cursor log_file).
Proof.
  apply preserves_load_cursor; eauto using frame_refl, frame_trans, frame_logged.
Qed.

(** The queries of the loop over the layers: one per attachment-enabled
    layer reached, in order, each with the arguments for the cursor; all of
    them when the loop returns. *)
Lemma layers_loop_queries (self : GetPhotos) (mo : number) (rel_fs : list Layer) :
  ∀ (nc : Control) (w : World),
    ∃ fss : list Layer,
      queries (w_trace (layers_loop self mo nc rel_fs w).1)
      = queries (w_trace w) ++ ((λ fs, (fs, query_args mo)) <$> fss)
      ∧ fss `prefix_of` filter (λ fs, hasAttachments fs = true) rel_fs
      ∧ (∀ nc', (layers_loop self mo nc rel_fs w).2 = Ok nc' →
                fss = filter (λ fs, hasAttachments fs = true) rel_fs).
Proof.
  induction rel_fs as [|fs rest IH]; intros nc w.
  { exists []. simpl. rewrite app_nil_r. done. }
  cbn [layers_loop]. rewrite bind_run. unfold layer_body.
  destruct (hasAttachments fs) eqn:Hatt.
  - rewrite filter_cons_True by done.
    unfold fs_query. rewrite !bind_run, emit_run, lift_run.
    destruct (query fs (query_args mo)) as [feats|e]; cbn [fst snd].
    + set (w1 := logged w [EvQuery fs (query_args mo)]).
      assert (∃ m : M Control, preserves same_queries m ∧
                (if (length feats =? 0)%nat then print MsgNoNewPhotos ;; mret nc
                 else features_loop self fs (length feats) nc 0 feats) = m)
        as (m & Hm & ->).
      { eexists. split; [|reflexivity]. destruct (length feats =? 0)%nat.
        - intros w0. rewrite bind_run, print_run. simpl.
          by apply same_queries_logged.
        - apply features_loop_same_queries. }
      specialize (Hm w1). destruct (m w1) as [w2 [nc1|e]]; cbn [fst snd] in *.
      * destruct (IH nc1 w2) as (fss & Hq & Hpre & Hall).
        exists (fs :: fss). split; [|split].
        -- rewrite Hq, Hm. subst w1. unfold logged. simpl.
           rewrite queries_app. simpl. by rewrite <- app_assoc.
        -- by apply prefix_cons.
        -- intros nc' Hok. f_equal. by eapply Hall.
      * exists [fs]. split; [|split]; [|apply prefix_cons, prefix_nil|done].
        rewrite Hm. subst w1. unfold logged. simpl. by rewrite queries_app.
    + exists [fs]. split; [|split]; [|apply prefix_cons, prefix_nil|done].
      unfold logged. simpl. by rewrite queries_app.
  - rewrite filter_cons_False by (rewrite Hatt; done).
    rewrite ret_run. apply IH.
Qed.

End LoopFacts.

(** ** Completed runs *)

Lemma bind_ok {A B} (m : M A) (f : A → M B) (w w' : World) (b : B) :
  (m ≫= f) w = (w', Ok b) → ∃ w1 a, m w = (w1, Ok a) ∧ f a w1 = (w', Ok b).
Proof.
  rewrite bind_run. destruct (m w) as [w1 [a|e]]; [eauto|discriminate].
Qed.

Tactic Notation "inv_bind" hyp(H) "as" ident(w1) ident(a) ident(H1) :=
  apply bind_ok in H as (w1 & a & H1 & H).

Lemma control_append_of (rows : list RawRow) (oid cd : Z) (form loc : string) :
  control_append (control_of rows) oid cd form loc
  = control_of (rows ++ [mk_raw oid cd form loc]).
Proof. unfold control_append, control_of. simpl. by rewrite !fmap_app. Qed.

Lemma zip_rows_of (rows : list RawRow) :
  zip_rows (raw_objectid <$> rows) (raw_created_date <$> rows)
           (raw_id_form <$> rows) (raw_local <$> rows) = rows.
Proof.
  induction rows as [|r rows IH]; [done|].
  rewrite !fmap_cons. cbn [zip_rows]. rewrite IH. by destruct r.
Qed.

Lemma pd_DataFrame_of (rows : list RawRow) : pd_DataFrame (control_of rows) = Ok rows.
Proof.
  unfold pd_DataFrame, control_of.
  cbn [nc_objectid nc_created_date nc_id_form nc_local].
  rewrite !length_fmap, Nat.eqb_refl, zip_rows_of. done.
Qed.

Lemma entry_of_format (self : GetPhotos) (f : Feature) (r : RawRow) :
  raw_entry_of self f r → entry_of self f (format_row r).
Proof. intros (? & ? & ? & ?). unfold entry_of. simpl. by subst; repeat split; try congruence. Qed.

Section RunFacts.
Context `{sdk : ArcGIS}.

Lemma feature_body_rows (self : GetPhotos) (fs : Layer) (n : nat) (nc nc' : Control)
    (indice : nat) (f : Feature) (w w' : World) :
  feature_body self fs n nc indice f w = (w', Ok nc') →
  ∃ folder, final_folder_of self f = Ok folder
            ∧ nc' = control_append nc (f_objectid f) (f_created_date f)
                      (gp_id_form self) folder.
Proof.
  unfold feature_body. intros H.
  inv_bind H as w1 u1 Hprint. inv_bind H as w2 folder Hfolder.
  rewrite lift_run in Hfolder.
  inv_bind H as w3 ex Hex. inv_bind H as w4 u2 Hmk.
  inv_bind H as w5 atts Hatts. inv_bind H as w6 u3 Hloop.
  rewrite ret_run in H. exists folder. split; congruence.
Qed.

Lemma features_loop_rows (self : GetPhotos) (fs : Layer) (n : nat)
    (features : list Feature) :
  ∀ (rows : list RawRow) (indice : nat) (w w' : World) (nc' : Control),
    features_loop self fs n (control_of rows) indice features w = (w', Ok nc') →
    ∃ news, Forall2 (raw_entry_of self) features news
            ∧ nc' = control_of (rows ++ news).
Proof.
  induction features as [|f rest IH]; intros rows indice w w' nc' H.
  - simpl in H. rewrite ret_run in H. exists []. rewrite app_nil_r.
    split; [constructor|congruence].
  - cbn [features_loop] in H. inv_bind H as w1 nc1 Hstep.
    apply feature_body_rows in Hstep as (folder & Hfolder & ->).
    rewrite control_append_of in H. apply IH in H as (news & Hnews & ->).
    exists (mk_raw (f_objectid f) (f_created_date f) (gp_id_form self) folder :: news).
    split.
    + constructor; [|exact Hnews]. unfold raw_entry_of. simpl. by split_and!.
    + by rewrite <- app_assoc.
Qed.

(** A loop over the layers that returns has queried every
    attachment-enabled layer with success and logged one row per feature of
    the answers, in order. *)
Lemma layers_loop_rows (self : GetPhotos) (mo : number) (rel_fs : list Layer) :
  ∀ (rows : list RawRow) (w w' : World) (nc' : Control),
    layers_loop self mo (control_of rows) rel_fs w = (w', Ok nc') →
    ∃ featss news,
      Forall2 (λ fs feats, query fs (query_args mo) = Ok feats)
              (filter (λ fs, hasAttachments fs = true) rel_fs) featss
      ∧ Forall2 (raw_entry_of self) (concat featss) news
      ∧ nc' = control_of (rows ++ news).
Proof.
  induction rel_fs as [|fs rest IH]; intros rows w w' nc' H.
  - simpl in H. rewrite ret_run in H. exists [], []. rewrite app_nil_r.
    repeat split; [constructor|constructor|congruence].
  - cbn [layers_loop] in H. inv_bind H as w1 nc1 Hstep. unfold layer_body in Hstep.
    destruct (hasAttachments fs) eqn:Hatt.
    + rewrite filter_cons_True by done.
      inv_bind Hstep as w2 feats Hquery. unfold fs_query in Hquery.
      inv_bind Hquery as w3 u Hemit.
      rewrite lift_run in Hquery. injection Hquery as Hw Hq. subst w3.
      assert (∃ news1, Forall2 (raw_entry_of self) feats news1
                       ∧ nc1 = control_of (rows ++ news1)) as (news1 & H1 & ->).
      { destruct (length feats =? 0)%nat eqn:Hlen.
        - apply Nat.eqb_eq, nil_length_inv in Hlen as ->.
          inv_bind Hstep as w4 u4 Hprint. rewrite ret_run in Hstep.
          exists []. rewrite app_nil_r. split; [constructor|congruence].
        - by eapply features_loop_rows. }
      apply IH in H as (featss & news & Hqs & Hnews & ->).
      exists (feats :: featss), (news1 ++ news). split; [|split].
      * by constructor.
      * simpl. by apply Forall2_app.
      * by rewrite <- app_assoc.
    + rewrite filter_cons_False by (rewrite Hatt; done).
      rewrite ret_run in Hstep. injection Hstep as Hw Ha. subst. by eapply IH.
Qed.

(** The shape of a run of [get_photos] that returns. *)
Lemma get_photos_ok (self : GetPhotos) (w w' : World) :
  get_photos self w = (w', Ok tt) →
  ∃ w1 prev mo survey w2 featss news,
    load_cursor (log_path self) w = (w1, Ok (prev, mo))
    ∧ content_get (gp_id_form self) = Ok (Some survey)
    ∧ (layers_loop self mo new_objects_control (layers survey ++ tables survey)
         (logged w1 [EvPrint (MsgFormPhotos (Some survey))])).1 = w2
    ∧ Forall2 (λ fs feats, query fs (query_args mo) = Ok feats)
              (with_attachments survey) featss
    ∧ Forall2 (raw_entry_of self) (concat featss) news
    ∧ persist_log (log_path self) prev (control_of news) w2 = (w', Ok tt).
Proof.
  unfold get_photos. intros H.
  inv_bind H as w1 cursor Hcursor. destruct cursor as [prev mo].
  inv_bind H as w2 u Hgis. unfold connect_to_gis in Hgis. rewrite lift_run in Hgis.
  injection Hgis as Hw _. subst w2.
  inv_bind H as w2 survey_by_id Hget. rewrite lift_run in Hget.
  injection Hget as Hw Hget. subst w2.
  inv_bind H as w2 survey Hsurvey. rewrite lift_run in Hsurvey.
  injection Hsurvey as Hw Hsurvey. subst w2.
  destruct survey_by_id as [survey'|]; [|discriminate].
  injection Hsurvey as Hs. subst survey'.
  inv_bind H as w2 u2 Hprint. rewrite print_run in Hprint.
  injection Hprint as Hw _. subst w2.
  inv_bind H as w2 nc Hloop. cbn [fst snd] in *.
  pose proof Hloop as Hrows.
  apply (layers_loop_rows self mo _ []) in Hrows as (featss & news & Hqs & Hnews & ->).
  exists w1, prev, mo, survey, w2, featss, news.
  split_and!; try done. by rewrite Hloop.
Qed.

End RunFacts.

(** ** The cursor and the queries of a run *)

Lemma prefix_filter_Forall {A} (P : A → Prop) `{!∀ x, Decision (P x)}
    (k l : list A) :
  k `prefix_of` filter P l → Forall P k.
Proof.
  intros [k' Hk]. apply Forall_forall. intros x Hx.
  assert (x ∈ filter P l) as Hin by (rewrite Hk; set_solver).
  by apply list_elem_of_filter in Hin as [? _].
Qed.

Lemma foldr_max_ge (x : Z) (l : list Z) : x ≤ foldr Z.max x l.
Proof. induction l as [|a l IH]; simpl; lia. Qed.

Lemma foldr_max_app (x : Z) (l l' : list Z) :
  foldr Z.max x l ≤ foldr Z.max x (l ++ l').
Proof.
  induction l as [|a l IH]; simpl; [apply foldr_max_ge|lia].
Qed.

(** The maximum of a column does not go down when rows are added below. *)
Lemma series_max_app (col more : list Z) (m : Z) :
  series_max col = Int m →
  ∃ m', series_max (col ++ more) = Int m' ∧ m ≤ m'.
Proof.
  destruct col as [|x col]; [discriminate|]. simpl. intros [= <-].
  eexists. split; [reflexivity|apply foldr_max_app].
Qed.

Lemma load_cursor_existing (log_file : string) (prev : list LogRow) (w : World) :
  w_files w !! log_file = Some (JsonLog prev) →
  load_cursor log_file w = (w, Ok (Some prev, series_max (objectid <$> prev))).
Proof.
  intros Hfile. unfold load_cursor, os_path_exists, read_json.
  rewrite bind_run. unfold exists_in. rewrite Hfile.
  rewrite bool_decide_eq_true_2 by eauto. simpl.
  rewrite bind_run, Hfile. reflexivity.
Qed.

Lemma load_cursor_absent (log_file : string) (w : World) :
  exists_in w log_file = false →
  load_cursor log_file w = (logged w [EvPrint MsgLogNotFound], Ok (None, Int 0)).
Proof.
  intros Hex. unfold load_cursor, os_path_exists. rewrite bind_run, Hex.
  reflexivity.
Qed.

Section QueryFacts.
Context `{sdk : ArcGIS}.

Lemma load_cursor_same_queries (log_file : string) :
  preserves same_queries (load_cursor log_file).
Proof.
  apply preserves_load_cursor;
    eauto using same_queries_refl, same_queries_trans, same_queries_logged.
Qed.

Lemma persist_log_same_queries (log_file : string) (prev : option (list LogRow))
    (nc : Control) :
  preserves same_queries (persist_log log_file prev nc).
Proof.
  intros w. unfold persist_log. rewrite bind_run, lift_run.
  destruct (pd_DataFrame nc) as [raw|e]; [|reflexivity].
  rewrite bind_run. unfold os_path_exists.
  assert (∀ rows, same_queries w
            ((to_json rows log_file ;; print MsgAllDownloaded) w).1) as Hwrite.
  { intros rows. unfold to_json, write_file. rewrite bind_run, print_run.
    unfold same_queries. simpl. by rewrite !queries_app, !app_nil_r. }
  destruct (exists_in w log_file); [destruct prev as [rows|]|];
    rewrite bind_run; try apply Hwrite. reflexivity.
Qed.

(** Whatever way a run of [get_photos] ends, the queries it made are the
    cursor's query on attachment-enabled layers; a run that returns has
    queried each such layer or table of the form once, in order. *)
Lemma get_photos_queries (self : GetPhotos) (w w1 : World)
    (prev : option (list LogRow)) (mo : number) :
  load_cursor (log_path self) w = (w1, Ok (prev, mo)) →
  ∃ fss : list Layer,
    queries (w_trace (get_photos self w).1)
    = queries (w_trace w) ++ ((λ fs, (fs, query_args mo)) <$> fss)
    ∧ Forall (λ fs, hasAttachments fs = true) fss
    ∧ ((get_photos self w).2 = Ok tt →
       ∃ survey, content_get (gp_id_form self) = Ok (Some survey)
                 ∧ fss = with_attachments survey).
Proof.
  intros Hcursor. pose proof (load_cursor_same_queries (log_path self) w) as Hsame.
  rewrite Hcursor in Hsame. unfold same_queries in Hsame. simpl in Hsame.
  assert (∀ w', queries (w_trace w') = queries (w_trace w1) →
            ∃ fss : list Layer,
              queries (w_trace w') = queries (w_trace w) ++ ((λ fs, (fs, query_args mo)) <$> fss)
              ∧ Forall (λ fs, hasAttachments fs = true) fss
              ∧ (@Raise unit NameError = Ok tt →
                 ∃ survey, content_get (gp_id_form self) = Ok (Some survey)
                           ∧ fss = with_attachments survey)) as Hstop.
  { intros w' Hw'. exists []. rewrite Hw', Hsame, app_nil_r. by split_and!. }
  unfold get_photos. rewrite bind_run, Hcursor. cbn [fst snd].
  unfold connect_to_gis. rewrite bind_run, lift_run.
  destruct GIS as [[]|e].
  2:{ destruct (Hstop w1 eq_refl) as (fss & ? & ? & _). exists fss. by split_and!. }
  rewrite bind_run, lift_run.
  destruct (content_get (gp_id_form self)) as [[survey|]|e]; cbn [deref].
  2,3: destruct (Hstop w1 eq_refl) as (fss & ? & ? & _); exists fss; by split_and!.
  rewrite bind_run, lift_run, bind_run, print_run, bind_run.
  set (w2 := logged w1 [EvPrint (MsgFormPhotos (Some survey))]).
  destruct (layers_loop_queries self mo (layers survey ++ tables survey)
              new_objects_control w2) as (fss & Hq & Hpre & Hall).
  assert (queries (w_trace w2) = queries (w_trace w)) as Hw2.
  { subst w2. unfold logged. simpl. by rewrite queries_app, app_nil_r. }
  rewrite Hw2 in Hq. exists fss.
  destruct (layers_loop self mo new_objects_control _ w2) as [w3 [nc|e]];
    cbn [fst snd] in *.
  - pose proof (persist_log_same_queries (log_path self) prev nc w3) as Hp.
    unfold same_queries in Hp. rewrite Hp. split_and!; [done|..].
    + by eapply prefix_filter_Forall.
    + intros _. exists survey. split; [done|]. by eapply Hall.
  - split_and!; [done| |done]. by eapply prefix_filter_Forall.
Qed.

(** C1.  With a log whose largest objectid is [M], every query a run of
    [get_photos] makes, however the run ends, goes to an
    attachment-enabled layer or table and asks for [objectid > M], ordered
    by [objectid ASC], with [created_date] as the only output field and no
    geometry; a run that returns has sent this query once to each
    attachment-enabled layer and table of the form, in order. *)
Theorem C1_query_above_cursor
    (self : GetPhotos) (prev : list LogRow) (M : Z) (w : World) :
  w_files w !! log_path self = Some (JsonLog prev) →
  series_max (objectid <$> prev) = Int M →
  ∃ fss : list Layer,
    queries (w_trace (get_photos self w).1)
    = queries (w_trace w)
      ++ ((λ fs, (fs, mk_query "created_date" ("objectid > " +:+ pretty M)
                        false "objectid ASC")) <$> fss)
    ∧ Forall (λ fs, hasAttachments fs = true) fss
    ∧ ((get_photos self w).2 = Ok tt →
       ∃ survey, content_get (gp_id_form self) = Ok (Some survey)
                 ∧ fss = with_attachments survey).
Proof.
  intros Hfile Hmax.
  pose proof (load_cursor_existing _ _ _ Hfile) as Hcursor. rewrite Hmax in Hcursor.
  exact (get_photos_queries self w w _ _ Hcursor).
Qed.

End QueryFacts.

(** ** Persisting the log *)

Lemma persist_log_result (log_file : string) (prev : option (list LogRow))
    (nc : Control) (raw : list RawRow) (w : World) :
  pd_DataFrame nc = Ok raw →
  persist_log log_file prev nc w
  = if exists_in w log_file
    then match prev with
         | Some rows => (written w log_file (rows ++ (format_row <$> raw)), Ok tt)
         | None => (w, Raise NameError)
         end
    else (written w log_file (format_row <$> raw), Ok tt).
Proof.
  intros Hraw. unfold persist_log. rewrite bind_run, lift_run, Hraw.
  rewrite bind_run. unfold os_path_exists.
  destruct (exists_in w log_file); [destruct prev as [rows|]|]; try reflexivity.
  - rewrite bind_run, ret_run. unfold to_json, write_file, written.
    rewrite bind_run, print_run. unfold logged. simpl. by rewrite <- app_assoc.
  - rewrite bind_run, ret_run. unfold to_json, write_file, written.
    rewrite bind_run, print_run. unfold logged. simpl. by rewrite <- app_assoc.
Qed.

Lemma format_created_date_fields (ms : Z) :
  format_created_date ms
  = pad2 (dt_day (to_datetime_ms ms)) +:+ "/"
    +:+ pad2 (dt_month (to_datetime_ms ms)) +:+ "/"
    +:+ pretty (dt_year (to_datetime_ms ms)) +:+ " "
    +:+ pad2 (dt_hour (to_datetime_ms ms)) +:+ ":"
    +:+ pad2 (dt_minute (to_datetime_ms ms)) +:+ ":"
    +:+ pad2 (dt_second (to_datetime_ms ms)).
Proof.
  unfold format_created_date. generalize (to_datetime_ms ms). intros d.
  cbn [strftime]. repeat (rewrite decide_True by done || rewrite decide_False by done).
  unfold directive.
  repeat (rewrite decide_True by done || rewrite decide_False by done).
  rewrite append_empty_r. reflexivity.
Qed.

(** *** The calendar fields and the shape of the formatted date *)

Lemma all_from_spec (P : Z → bool) (n : nat) :
  ∀ a, all_from P a n = true → ∀ k, a ≤ k < a + Z.of_nat n → P k = true.
Proof.
  induction n as [|n IH]; intros a H k Hk; [lia|].
  simpl in H. apply andb_true_iff in H as [Ha H].
  destruct (decide (k = a)) as [->|Hne]; [done|].
  apply (IH (a + 1)); [done|lia].
Qed.

Lemma range_check (P : Z → bool) (a n : Z) :
  all_from P a (Z.to_nat n) = true → ∀ k, a ≤ k < a + n → P k = true.
Proof. intros H k Hk. apply (all_from_spec P (Z.to_nat n) a H). lia. Qed.

Lemma pad2_digits (n : Z) : 0 ≤ n < 100 → has_shape "dd" (pad2 n) = true.
Proof.
  intros Hn. apply (range_check (λ k, has_shape "dd" (pad2 k)) 0 100); [|lia].
  vm_compute. reflexivity.
Qed.

Lemma year_digits (y : Z) : 1000 ≤ y ≤ 9999 → has_shape "dddd" (pretty y) = true.
Proof.
  intros Hy. apply (range_check (λ k, has_shape "dddd" (pretty k)) 1000 9000); [|lia].
  vm_compute. reflexivity.
Qed.

Lemma has_shape_app (p1 p2 s1 s2 : string) :
  has_shape p1 s1 = true → has_shape p2 s2 = true →
  has_shape (p1 +:+ p2) (s1 +:+ s2) = true.
Proof.
  revert s1. induction p1 as [|p p1 IH]; intros [|c s1]; simpl; try done.
  intros H1 H2. apply andb_true_iff in H1 as [Hc H1].
  change (has_shape (String p (p1 +:+ p2)) (String c (s1 +:+ s2)) = true).
  simpl. rewrite Hc. simpl. by apply IH.
Qed.

Lemma civil_month_day (days : Z) :
  1 ≤ (civil_from_days days).1.2 ≤ 12 ∧ 1 ≤ (civil_from_days days).2 ≤ 31.
Proof.
  unfold civil_from_days. cbn [fst snd].
  set (z := days + 719468). set (era := z / 146097).
  set (doe := z - era * 146097).
  assert (0 ≤ doe < 146097) as Hdoe.
  { subst doe era. pose proof (Z.mod_pos_bound z 146097 ltac:(lia)) as H.
    rewrite Z.mod_eq in H by lia. lia. }
  clearbody doe. clear z era.
  set (yoe := (doe - doe / 1460 + doe / 36524 - doe / 146096) / 365).
  set (doy := doe - (365 * yoe + yoe / 4 - yoe / 100)).
  assert (0 ≤ doy ≤ 365) as Hdoy.
  { subst doy yoe. Z.div_mod_to_equations. lia. }
  clearbody doy.
  set (mp := (5 * doy + 2) / 153).
  assert (0 ≤ mp ≤ 11) by (subst mp; Z.div_mod_to_equations; lia).
  destruct (Z.ltb_spec mp 10); split; try lia.
  - subst mp. Z.div_mod_to_equations. lia.
  - subst mp. Z.div_mod_to_equations. lia.
Qed.

Lemma civil_year_era (days : Z) :
  (civil_from_days days).1.1
  = year_of_era ((days + 719468) mod 146097) + (days + 719468) / 146097 * 400.
Proof.
  unfold civil_from_days, year_of_era. cbn [fst snd].
  rewrite Z.mod_eq by lia.
  replace (days + 719468 - 146097 * ((days + 719468) / 146097))
    with (days + 719468 - (days + 719468) / 146097 * 146097) by lia.
  lia.
Qed.

Lemma year_of_era_bounds (doe : Z) :
  0 ≤ doe < 146097 →
  0 ≤ year_of_era doe ≤ 400
  ∧ (135080 ≤ doe → 370 ≤ year_of_era doe)
  ∧ (doe < 146037 → year_of_era doe ≤ 399).
Proof.
  intros Hdoe. unfold year_of_era.
  set (yoe := (doe - doe / 1460 + doe / 36524 - doe / 146096) / 365).
  assert (0 ≤ yoe ≤ 399) as Hyoe by (subst yoe; Z.div_mod_to_equations; lia).
  assert (135080 ≤ doe → 369 ≤ yoe) as Hlow by (subst yoe; Z.div_mod_to_equations; lia).
  set (doy := doe - (365 * yoe + yoe / 4 - yoe / 100)).
  assert (yoe = 369 → 135080 ≤ doe → 306 ≤ doy) as Hdoy1
    by (subst doy; Z.div_mod_to_equations; lia).
  assert (yoe = 399 → doe < 146037 → doy < 306) as Hdoy2
    by (subst doy; Z.div_mod_to_equations; lia).
  assert (0 ≤ doy ≤ 365) as Hdoy0 by (subst doy yoe; Z.div_mod_to_equations; lia).
  clearbody doy. clearbody yoe.
  set (mp := (5 * doy + 2) / 153).
  assert (306 ≤ doy → 10 ≤ mp) as Hmp1 by (subst mp; Z.div_mod_to_equations; lia).
  assert (doy < 306 → mp < 10) as Hmp2 by (subst mp; Z.div_mod_to_equations; lia).
  assert (0 ≤ mp ≤ 11) as Hmp0 by (subst mp; Z.div_mod_to_equations; lia).
  clearbody mp.
  destruct (Z.ltb_spec mp 10); [destruct (Z.leb_spec (mp + 3) 2)|destruct (Z.leb_spec (mp - 9) 2)];
    split_and!; try lia.
Qed.

Lemma civil_year (days : Z) :
  0 ≤ days < 2932897 → 1970 ≤ (civil_from_days days).1.1 ≤ 9999.
Proof.
  intros Hd. rewrite civil_year_era.
  set (z := days + 719468).
  assert (0 ≤ z mod 146097 < 146097) as Hdoe by (apply Z.mod_pos_bound; lia).
  assert (z = 146097 * (z / 146097) + z mod 146097) as Hz by (apply Z.div_mod; lia).
  set (doe := z mod 146097) in *. set (era := z / 146097) in *.
  destruct (year_of_era_bounds doe Hdoe) as (Hall & Hlow & Hhigh).
  subst z. assert (4 ≤ era ≤ 24) by lia.
  assert (era = 4 → 135080 ≤ doe) by lia.
  assert (era = 24 → doe < 146037) by lia.
  lia.
Qed.

Lemma to_datetime_fields (ms : Z) :
  0 ≤ ms < 253402300800000 →
  1 ≤ dt_day (to_datetime_ms ms) ≤ 31
  ∧ 1 ≤ dt_month (to_datetime_ms ms) ≤ 12
  ∧ 1970 ≤ dt_year (to_datetime_ms ms) ≤ 9999
  ∧ 0 ≤ dt_hour (to_datetime_ms ms) < 24
  ∧ 0 ≤ dt_minute (to_datetime_ms ms) < 60
  ∧ 0 ≤ dt_second (to_datetime_ms ms) < 60.
Proof.
  intros Hms. unfold to_datetime_ms, utcfromtimestamp.
  set (secs := ms / 1000).
  assert (0 ≤ secs < 253402300800) as Hsecs by (subst secs; Z.div_mod_to_equations; lia).
  clearbody secs.
  pose proof (civil_month_day (secs / 86400)) as [Hm Hd].
  pose proof (civil_year (secs / 86400)) as Hy.
  destruct (civil_from_days (secs / 86400)) as [[y m] d]. cbn [fst snd] in *.
  cbn [dt_day dt_month dt_year dt_hour dt_minute dt_second].
  split_and!; try lia.
  all: try (apply Hy; Z.div_mod_to_equations; lia).
  all: Z.div_mod_to_equations; lia.
Qed.

Lemma format_created_date_shape (ms : Z) :
  0 ≤ ms < 253402300800000 →
  has_shape "dd/dd/dddd dd:dd:dd" (format_created_date ms) = true.
Proof.
  intros Hms. rewrite format_created_date_fields.
  destruct (to_datetime_fields ms Hms) as (Hd & Hm & Hy & HH & HM & HS).
  change "dd/dd/dddd dd:dd:dd"
    with ("dd" +:+ "/" +:+ "dd" +:+ "/" +:+ "dddd" +:+ " " +:+ "dd" +:+ ":" +:+ "dd"
          +:+ ":" +:+ "dd").
  repeat (apply has_shape_app; [first [apply pad2_digits; lia | apply year_digits; lia | reflexivity]|]).
  apply pad2_digits; lia.
Qed.

(** C8.  [persist_log] turns the new rows' [created_date] from
    milliseconds into day/month/year hour:minute:second text (two digits,
    slash, two digits, slash, four digits, space, and two digits three
    times between colons, for a timestamp from 1970 to the end of year
    9999), puts the new rows after the rows loaded from the log, which are
    passed on as they were read, and replaces the log file by the result
    with a single [to_json]; without a log at that moment the file holds
    the new rows alone. *)
Theorem C8_persist_log
    (log_file : string) (prev : list LogRow) (nc : Control) (raw : list RawRow)
    (w : World) :
  pd_DataFrame nc = Ok raw →
  (exists_in w log_file = true →
   persist_log log_file (Some prev) nc w
   = (written w log_file (prev ++ (format_row <$> raw)), Ok tt))
  ∧ (exists_in w log_file = false →
     persist_log log_file None nc w
     = (written w log_file (format_row <$> raw), Ok tt))
  ∧ (∀ rows,
       w_files (written w log_file rows) !! log_file = Some (JsonLog rows)
       ∧ json_writes (w_trace (written w log_file rows))
         = json_writes (w_trace w) ++ [(log_file, rows)])
  ∧ Forall2 (λ r row,
       objectid row = raw_objectid r
       ∧ id_form row = raw_id_form r
       ∧ local row = raw_local r
       ∧ created_date row
         = pad2 (dt_day (to_datetime_ms (raw_created_date r))) +:+ "/"
           +:+ pad2 (dt_month (to_datetime_ms (raw_created_date r))) +:+ "/"
           +:+ pretty (dt_year (to_datetime_ms (raw_created_date r))) +:+ " "
           +:+ pad2 (dt_hour (to_datetime_ms (raw_created_date r))) +:+ ":"
           +:+ pad2 (dt_minute (to_datetime_ms (raw_created_date r))) +:+ ":"
           +:+ pad2 (dt_second (to_datetime_ms (raw_created_date r)))
       ∧ (0 ≤ raw_created_date r < 253402300800000 →
          has_shape "dd/dd/dddd dd:dd:dd" (created_date row) = true))
     raw (format_row <$> raw).
Proof.
  intros Hraw. split_and!.
  - intros Hex. by rewrite (persist_log_result _ _ _ _ _ Hraw), Hex.
  - intros Hex. by rewrite (persist_log_result _ _ _ _ _ Hraw), Hex.
  - intros rows. unfold written. simpl. split; [apply lookup_insert_eq|].
    unfold json_writes. by rewrite omap_app.
  - apply Forall2_fmap_r, Forall_Forall2_diag, Forall_forall. intros r _.
    split_and!; try reflexivity; [apply format_created_date_fields|].
    apply format_created_date_shape.
Qed.

(** ** What a completed run leaves in the log *)

Section LogFacts.
Context `{sdk : ArcGIS}.

(** C2 (as amended).  A run of [get_photos] that returns leaves a log made
    of carried-over rows (the rows it loaded, or none) followed by exactly
    one new row for every feature the queries of the attachment-enabled
    layers and tables returned, in order, each with the feature's objectid,
    its formatted creation date, the form id and the destination folder;
    whether the feature has attachments plays no role. *)
Theorem C2_one_entry_per_feature (self : GetPhotos) (w w' : World) :
  get_photos self w = (w', Ok tt) →
  ∃ prev mo survey featss carried news,
    (load_cursor (log_path self) w).2 = Ok (prev, mo)
    ∧ content_get (gp_id_form self) = Ok (Some survey)
    ∧ Forall2 (λ fs feats, query fs (query_args mo) = Ok feats)
              (with_attachments survey) featss
    ∧ Forall2 (entry_of self) (concat featss) news
    ∧ (carried = [] ∨ prev = Some carried)
    ∧ w_files w' !! log_path self = Some (JsonLog (carried ++ news)).
Proof.
  intros Hrun.
  apply get_photos_ok in Hrun
    as (w1 & prev & mo & survey & w2 & featss & raws & Hc & Hget & _ & Hqs & Hraws & Hp).
  rewrite (persist_log_result _ _ _ _ _ (pd_DataFrame_of raws)) in Hp.
  assert (Forall2 (entry_of self) (concat featss) (format_row <$> raws)) as Hnews.
  { apply Forall2_fmap_r. eapply Forall2_impl; [exact Hraws|].
    intros f r. apply entry_of_format. }
  destruct (exists_in w2 (log_path self)); [destruct prev as [rows|]|].
  - injection Hp as <-.
    exists (Some rows), mo, survey, featss, rows, (format_row <$> raws).
    rewrite Hc. split_and!; try done; [by right|apply lookup_insert_eq].
  - discriminate.
  - injection Hp as <-.
    exists prev, mo, survey, featss, [], (format_row <$> raws).
    rewrite Hc. split_and!; try done; [by left|apply lookup_insert_eq].
Qed.

(** C10.  Take a run of [get_photos] that starts with a log whose largest
    objectid is [M], returns, and whose download loop did not create,
    download to or rename the log's own path.  The rewritten log is the old
    rows followed by one row per feature returned by the queries for
    [objectid > M], so its largest objectid is at least [M]. *)
Theorem C10_log_maximum_monotone
    (self : GetPhotos) (prev : list LogRow) (M : Z) (w w' : World)
    (t : list Event) :
  w_files w !! log_path self = Some (JsonLog prev) →
  series_max (objectid <$> prev) = Int M →
  get_photos self w = (w', Ok tt) →
  w_trace w' = w_trace w ++ t →
  log_path self ∉ photo_paths t →
  ∃ survey featss news,
    content_get (gp_id_form self) = Ok (Some survey)
    ∧ Forall2 (λ fs feats, query fs (query_args (Int M)) = Ok feats)
              (with_attachments survey) featss
    ∧ Forall2 (entry_of self) (concat featss) news
    ∧ w_files w' !! log_path self = Some (JsonLog (prev ++ news))
    ∧ ∃ M', series_max (objectid <$> (prev ++ news)) = Int M' ∧ M ≤ M'.
Proof.
  intros Hfile Hmax Hrun Ht Hfree.
  apply get_photos_ok in Hrun
    as (w1 & prev0 & mo & survey & w2 & featss & raws & Hc & Hget & Hw2 & Hqs & Hraws & Hp).
  rewrite (load_cursor_existing _ _ _ Hfile), Hmax in Hc.
  injection Hc as <- <- <-.
  pose proof (layers_loop_frame (log_path self) self (Int M)
                (layers survey ++ tables survey) new_objects_control
                (logged w [EvPrint (MsgFormPhotos (Some survey))])) as Hframe.
  rewrite Hw2 in Hframe. destruct Hframe as (t2 & Ht2 & Hkeep).
  rewrite (persist_log_result _ _ _ _ _ (pd_DataFrame_of raws)) in Hp.
  assert (∀ rows, w' = written w2 (log_path self) rows →
            w_files w2 !! log_path self = Some (JsonLog prev)) as Hsame.
  { intros rows ->. unfold written in Ht. simpl in Ht. rewrite Ht2 in Ht.
    unfold logged in Ht. simpl in Ht. rewrite <- !app_assoc in Ht.
    apply app_inv_head in Ht. subst t.
    rewrite !photo_paths_app in Hfree. unfold photo_paths at 1 3 in Hfree.
    simpl in Hfree. rewrite app_nil_r in Hfree.
    destruct (Hkeep Hfree) as [Hf _]. by rewrite Hf. }
  assert (Forall2 (entry_of self) (concat featss) (format_row <$> raws)) as Hnews.
  { apply Forall2_fmap_r. eapply Forall2_impl; [exact Hraws|].
    intros f r. apply entry_of_format. }
  destruct (exists_in w2 (log_path self)) eqn:Hex.
  - injection Hp as <-.
    exists survey, featss, (format_row <$> raws).
    split_and!; try done; [apply lookup_insert_eq|].
    rewrite fmap_app. by apply series_max_app.
  - injection Hp as Hw'. symmetry in Hw'. apply Hsame in Hw'.
    unfold exists_in in Hex. rewrite Hw' in Hex.
    rewrite bool_decide_eq_true_2 in Hex by eauto. discriminate.
Qed.

End LogFacts.

(** ** The statements on the reference portal *)

Section OnPortal.
Import Portal.
Local Existing Instance reference.

Lemma C1_query_above_cursor_witness :
  w_files synced !! log_path photos = Some (JsonLog [row5])
  ∧ series_max (objectid <$> [row5]) = Int 5
  ∧ ∃ fss : list Layer,
      queries (w_trace (get_photos photos synced).1)
      = queries (w_trace synced)
        ++ ((λ fs, (fs, mk_query "created_date" ("objectid > " +:+ pretty 5)
                          false "objectid ASC")) <$> fss)
      ∧ Forall (λ fs, hasAttachments fs = true) fss
      ∧ ((get_photos photos synced).2 = Ok tt →
         ∃ survey, content_get (gp_id_form photos) = Ok (Some survey)
                   ∧ fss = with_attachments survey).
Proof.
  split; [reflexivity|]. split; [reflexivity|].
  apply (C1_query_above_cursor photos [row5] 5 synced); reflexivity.
Defined.

(** C2, as stated, fails: record 8 of the reference portal has no
    attachment, and the first run logs it all the same. *)
Lemma C2_entry_without_attachments :
  attachments_get_list points 8 = Ok []
  ∧ (get_photos photos fresh).2 = Ok tt
  ∧ ∃ rows, w_files (get_photos photos fresh).1 !! log_path photos
            = Some (JsonLog rows)
            ∧ mk_row 8 "15/06/2023 12:00:05" "form1" "./photos/team/23-06-15" ∈ rows.
Proof.
  split; [reflexivity|]. split; [vm_compute; reflexivity|].
  eexists. split; [vm_compute; reflexivity|].
  do 2 apply list_elem_of_further. apply list_elem_of_here.
Qed.

Lemma C2_one_entry_per_feature_witness :
  get_photos photos fresh = ((get_photos photos fresh).1, Ok tt)
  ∧ ∃ prev mo survey featss carried news,
      (load_cursor (log_path photos) fresh).2 = Ok (prev, mo)
      ∧ content_get (gp_id_form photos) = Ok (Some survey)
      ∧ Forall2 (λ fs feats, query fs (query_args mo) = Ok feats)
                (with_attachments survey) featss
      ∧ Forall2 (entry_of photos) (concat featss) news
      ∧ (carried = [] ∨ prev = Some carried)
      ∧ w_files (get_photos photos fresh).1 !! log_path photos
        = Some (JsonLog (carried ++ news)).
Proof.
  assert (get_photos photos fresh = ((get_photos photos fresh).1, Ok tt)) as Hrun
    by (vm_compute; reflexivity).
  split; [exact Hrun|].
  exact (C2_one_entry_per_feature photos fresh _ Hrun).
Defined.

(** C4 at an input where the code misses it.  The claim: every downloaded
    attachment gets [-oid_{objectid}] inserted before its extension,
    whatever the extension.  The code: the attachment [sketch.png] of
    record 5 keeps its downloaded name, no file carries the objectid, and
    the run prints the message that the file was not downloaded because it
    already exists, on a machine where nothing existed. *)
Lemma C4_png_not_renamed :
  final_name "./photos/team/23-06-14/sketch.png" 5 = "./photos/team/23-06-14/sketch.png"
  ∧ (get_photos photos fresh).2 = Ok tt
  ∧ w_files (get_photos photos fresh).1 !! "./photos/team/23-06-14/sketch.png"
    = Some (Blob "png-5-2")
  ∧ w_files (get_photos photos fresh).1 !! "./photos/team/23-06-14/sketch-oid_5.png"
    = None
  ∧ EvPrint (MsgFileExists 5 "./photos/team/23-06-14/sketch.png")
    ∈ w_trace (get_photos photos fresh).1.
Proof.
  split_and!; try (vm_compute; reflexivity).
  apply list_elem_of_lookup. exists 8%nat. vm_compute. reflexivity.
Qed.

Lemma C4_rename_jpg_witness :
  attachments_download points 7 (att_id (mk_att 1 "Photo 1.jpg"))
  = Ok ("Photo 1.jpg", "jpeg-7-1")
  ∧ os_path_join "./photos/team/23-06-15" "Photo 1.jpg"
    = "./photos/team/23-06-15/Photo 1" +:+ ".jpg"
  ∧ occurs ".jpg" "./photos/team/23-06-15/Photo 1" = false
  ∧ exists_in fresh ("./photos/team/23-06-15/Photo 1" +:+ "-oid_" +:+ pretty 7 +:+ ".jpg")
    = false
  ∧ attachment_body points 7 "./photos/team/23-06-15" (mk_att 1 "Photo 1.jpg") fresh
    = (mk_world
         (<["./photos/team/23-06-15/Photo 1" +:+ "-oid_" +:+ pretty 7 +:+ ".jpg"
            := Blob "jpeg-7-1"]>
            (delete ("./photos/team/23-06-15/Photo 1" +:+ ".jpg") (w_files fresh)))
         (w_dirs fresh)
         (w_trace fresh
          ++ [EvDownload ("./photos/team/23-06-15/Photo 1" +:+ ".jpg");
              EvRename ("./photos/team/23-06-15/Photo 1" +:+ ".jpg")
                ("./photos/team/23-06-15/Photo 1" +:+ "-oid_" +:+ pretty 7 +:+ ".jpg")]),
       Ok tt).
Proof.
  do 4 (split; [reflexivity|]).
  apply (C4_rename_jpg points 7 "./photos/team/23-06-15" (mk_att 1 "Photo 1.jpg")
           "Photo 1.jpg" "jpeg-7-1" "./photos/team/23-06-15/Photo 1" fresh);
    reflexivity.
Defined.

Lemma C5_existing_target_kept_witness :
  attachments_download points 7 (att_id (mk_att 1 "Photo 1.jpg"))
  = Ok ("Photo 1.jpg", "jpeg-7-1")
  ∧ exists_in taken
      (final_name (os_path_join "./photos/team/23-06-15" "Photo 1.jpg") 7) = true
  ∧ attachment_body points 7 "./photos/team/23-06-15" (mk_att 1 "Photo 1.jpg") taken
    = (logged (downloaded taken (os_path_join "./photos/team/23-06-15" "Photo 1.jpg")
                 "jpeg-7-1")
         [EvPrint (MsgFileExists 7
                     (final_name (os_path_join "./photos/team/23-06-15" "Photo 1.jpg") 7))],
       Ok tt)
  ∧ w_files (downloaded taken (os_path_join "./photos/team/23-06-15" "Photo 1.jpg")
               "jpeg-7-1")
      !! final_name (os_path_join "./photos/team/23-06-15" "Photo 1.jpg") 7
    = Some (Blob "old").
Proof.
  split; [reflexivity|]. split; [vm_compute; reflexivity|].
  destruct (C5_existing_target_kept points 7 "./photos/team/23-06-15"
              (mk_att 1 "Photo 1.jpg") "Photo 1.jpg" "jpeg-7-1" taken)
    as [Hrun Hkeep]; [reflexivity|vm_compute; reflexivity|].
  split; [exact Hrun|]. rewrite Hkeep; [vm_compute; reflexivity|].
  vm_compute. discriminate.
Defined.

(** C6, as stated, fails: the form has one layer and one table, position
    -1 is none of their positions, and both calls return the data of the
    last layer and of the last table. *)
Lemma C6_negative_position_returns_data :
  length (layers survey) = 1%nat ∧ length (tables survey) = 1%nat
  ∧ get_main_layer data (-1) false None fresh = (fresh, Ok points_df)
  ∧ get_table data (-1) false None fresh
    = (fresh, Ok (mk_df ["objectid"; "created_date"] [["1"; "1686744005000"]])).
Proof. split_and!; vm_compute; reflexivity. Qed.

Lemma C6_position_out_of_range_witness :
  gd_survey_by_id data = Some survey
  ∧ get_main_layer data 1 true (Some "points") fresh = (fresh, Raise IndexError)
  ∧ get_table data (-2) true (Some "visits") fresh = (fresh, Raise IndexError).
Proof.
  split; [reflexivity|]. split.
  - apply (proj1 (C6_position_out_of_range data survey 1 true (Some "points") fresh
                    eq_refl)).
    right. simpl. lia.
  - apply (proj2 (C6_position_out_of_range data survey (-2) true (Some "visits") fresh
                    eq_refl)).
    left. simpl. lia.
Defined.

Lemma C7_upload_first_match_witness :
  GIS = Ok tt
  ∧ content_search "survey" "CSV" = Ok [mk_item "survey" [] []; mk_item "survey" [points] []]
  ∧ content_search "missing" "CSV" = Ok []
  ∧ upload_to_portal "out" "survey" "CSV" fresh
    = (logged fresh [EvUpdate (mk_item "survey" [] []) "out/survey.csv";
                     EvPrint (MsgUpdated "survey")], Ok tt)
  ∧ upload_to_portal "out" "missing" "CSV" fresh = (fresh, Raise IndexError).
Proof.
  do 3 (split; [reflexivity|]). split.
  - exact (C7_upload_first_match "out" "survey" "CSV"
             [mk_item "survey" [] []; mk_item "survey" [points] []] fresh
             eq_refl eq_refl).
  - exact (C7_upload_first_match "out" "missing" "CSV" [] fresh eq_refl eq_refl).
Defined.

Lemma C8_persist_log_witness :
  pd_DataFrame (mk_control [7] [1686830405123] ["form1"] ["./photos/team/23-06-15"])
  = Ok [mk_raw 7 1686830405123 "form1" "./photos/team/23-06-15"]
  ∧ exists_in synced (log_path photos) = true
  ∧ persist_log (log_path photos) (Some [row5])
      (mk_control [7] [1686830405123] ["form1"] ["./photos/team/23-06-15"]) synced
    = (written synced (log_path photos)
         [row5; mk_row 7 "15/06/2023 12:00:05" "form1" "./photos/team/23-06-15"],
       Ok tt).
Proof.
  split; [reflexivity|]. split; [reflexivity|].
  destruct (C8_persist_log (log_path photos) [row5]
              (mk_control [7] [1686830405123] ["form1"] ["./photos/team/23-06-15"])
              [mk_raw 7 1686830405123 "form1" "./photos/team/23-06-15"] synced
              eq_refl) as (Hsome & _).
  rewrite Hsome by reflexivity. vm_compute. reflexivity.
Defined.

Lemma C9_save_csv_witness :
  gd_survey_by_id data = Some survey
  ∧ query_as_df points = Ok points_df
  ∧ py_index (layers survey) 0 = Ok points
  ∧ get_main_layer data 0 true (Some "points") fresh
    = (csv_written fresh "out/PRJ_points.csv" points_df, Ok points_df)
  ∧ csv_path data "points" = "out" +:+ "/" +:+ "PRJ_" +:+ "points" +:+ ".csv".
Proof.
  assert (query_as_df points = Ok points_df) as Hq by (vm_compute; reflexivity).
  split; [reflexivity|]. split; [exact Hq|]. split; [reflexivity|].
  destruct (C9_save_csv data survey 0 "points" points points_df fresh eq_refl Hq)
    as (Hlayer & _ & Hpath).
  split; [apply Hlayer; reflexivity|].
  apply Hpath; [discriminate|reflexivity|reflexivity].
Defined.

Lemma C10_log_maximum_monotone_witness :
  w_files synced !! log_path photos = Some (JsonLog [row5])
  ∧ series_max (objectid <$> [row5]) = Int 5
  ∧ get_photos photos synced = ((get_photos photos synced).1, Ok tt)
  ∧ (log_path photos ∉ photo_paths (w_trace (get_photos photos synced).1))
  ∧ ∃ survey featss news,
      content_get (gp_id_form photos) = Ok (Some survey)
      ∧ Forall2 (λ fs feats, query fs (query_args (Int 5)) = Ok feats)
                (with_attachments survey) featss
      ∧ Forall2 (entry_of photos) (concat featss) news
      ∧ w_files (get_photos photos synced).1 !! log_path photos
        = Some (JsonLog ([row5] ++ news))
      ∧ ∃ M', series_max (objectid <$> ([row5] ++ news)) = Int M' ∧ 5 ≤ M'.
Proof.
  assert (get_photos photos synced = ((get_photos photos synced).1, Ok tt)) as Hrun
    by (vm_compute; reflexivity).
  assert (log_path photos ∉ photo_paths (w_trace (get_photos photos synced).1))
    as Hfree.
  { refine (bool_decide_eq_false_1
              (log_path photos ∈ photo_paths (w_trace (get_photos photos synced).1)) _).
    vm_compute. reflexivity. }
  do 2 (split; [reflexivity|]). split; [exact Hrun|]. split; [exact Hfree|].
  assert (w_trace (get_photos photos synced).1
          = w_trace synced ++ w_trace (get_photos photos synced).1) as Ht
    by (vm_compute; reflexivity).
  exact (C10_log_maximum_monotone photos [row5] 5 synced
           (get_photos photos synced).1 (w_trace (get_photos photos synced).1)
           eq_refl eq_refl Hrun Ht Hfree).
Defined.

(** The example of the specification: records 5 and 7 (and 8) remote, a log
    with 5 only; the run logs 7 and 8 after 5. *)
Example synced_run_log :
  w_files (get_photos photos synced).1 !! log_path photos
  = Some (JsonLog [row5;
                   mk_row 7 "15/06/2023 12:00:05" "form1" "./photos/team/23-06-15";
                   mk_row 8 "15/06/2023 12:00:05" "form1" "./photos/team/23-06-15"]).
Proof. vm_compute. reflexivity. Qed.

End OnPortal.

(** * Further properties of the classes *)

(** ** GetData and UploadToPortal: failures and frames *)

Lemma py_index_from_end {A} (l : list A) (k : Z) :
  1 ≤ k ≤ Z.of_nat (length l) →
  py_index l (- k) = py_index l (Z.of_nat (length l) - k).
Proof.
  intros Hk. unfold py_index.
  destruct (Z.leb_spec 0 (- k)) as [H0|H0]; [lia|].
  destruct (Z.leb_spec 0 (Z.of_nat (length l) - k)) as [H1|H1]; [|lia].
  replace (Z.of_nat (length l) + - k) with (Z.of_nat (length l) - k) by lia.
  reflexivity.
Qed.

Section GetDataMore.
Context `{sdk : ArcGIS}.

(** An unknown form id is not noticed by the constructor: [content.get]
    yields [None], the constructor prints it and returns, and every later
    [get_main_layer] or [get_table] raises AttributeError without touching
    anything. *)
Theorem unknown_form_fails_at_first_fetch
    (id_form save_directory : string) (prefix : option string) (w : World) :
  GIS = Ok tt →
  content_get id_form = Ok None →
  GetData_init id_form save_directory prefix w
  = (logged w [EvPrint (MsgFormToDownload None)],
     Ok (mk_GetData id_form prefix save_directory None))
  ∧ ∀ (position : Z) (save : bool) (file_name : option string) (w1 : World),
      get_main_layer (mk_GetData id_form prefix save_directory None)
        position save file_name w1 = (w1, Raise AttributeError)
      ∧ get_table (mk_GetData id_form prefix save_directory None)
          position save file_name w1 = (w1, Raise AttributeError).
Proof.
  intros Hgis Hget. split.
  - unfold GetData_init, connect_to_gis. rewrite Hgis. run. rewrite Hget. run.
    reflexivity.
  - intros. split; reflexivity.
Qed.

(** Without [save] nothing is written and the call yields what the query
    yields; with [save=True] but no [file_name], the frame is still queried
    and the call then raises TypeError with nothing written. *)
Theorem fetch_without_saving
    (self : GetData) (survey : Item) (position : Z) (fs : Layer)
    (file_name : option string) (w : World) :
  gd_survey_by_id self = Some survey →
  (py_index (layers survey) position = Ok fs →
     get_main_layer self position false file_name w = (w, query_as_df fs)
     ∧ (∀ df, query_as_df fs = Ok df →
              get_main_layer self position true None w = (w, Raise TypeError)))
  ∧ (py_index (tables survey) position = Ok fs →
     get_table self position false file_name w = (w, query_as_df fs)
     ∧ (∀ df, query_as_df fs = Ok df →
              get_table self position true None w = (w, Raise TypeError))).
Proof.
  intros Hs. split; intros Hi.
  - unfold get_main_layer. rewrite Hs. run. rewrite Hi. run. split.
    + destruct (query_as_df fs); reflexivity.
    + intros df ->. unfold save_frame. destruct (gd_prefix self); reflexivity.
  - unfold get_table. rewrite Hs. run. rewrite Hi. run. split.
    + destruct (query_as_df fs); reflexivity.
    + intros df ->. unfold save_frame. destruct (gd_prefix self); reflexivity.
Qed.

(** A negative position counts from the end: with [n] layers and
    [1 <= k <= n], position [-k] behaves in every respect like position
    [n - k]; the same for tables. *)
Theorem negative_position_counts_from_end
    (self : GetData) (survey : Item) (k : Z) (save : bool)
    (file_name : option string) (w : World) :
  gd_survey_by_id self = Some survey →
  (1 ≤ k ≤ Z.of_nat (length (layers survey)) →
     get_main_layer self (- k) save file_name w
     = get_main_layer self (Z.of_nat (length (layers survey)) - k) save file_name w)
  ∧ (1 ≤ k ≤ Z.of_nat (length (tables survey)) →
     get_table self (- k) save file_name w
     = get_table self (Z.of_nat (length (tables survey)) - k) save file_name w).
Proof.
  intros Hs. split; intros Hk.
  - unfold get_main_layer. rewrite Hs. run. by rewrite py_index_from_end.
  - unfold get_table. rewrite Hs. run. by rewrite py_index_from_end.
Qed.

(** However [upload_to_portal] ends, it has touched no local file or
    directory: the world it leaves is the one it found plus prints and at
    most one portal update, exactly one when it returns. *)
Theorem upload_leaves_local_files
    (upload_directory file_name file_format : string) (w : World) :
  ∃ t : list Event,
    (upload_to_portal upload_directory file_name file_format w).1 = logged w t
    ∧ forallb is_remote_or_print t = true
    ∧ (length (updates t) ≤ 1)%nat
    ∧ ((upload_to_portal upload_directory file_name file_format w).2 = Ok tt →
       length (updates t) = 1%nat).
Proof.
  unfold upload_to_portal, connect_to_gis. rewrite bind_run, lift_run.
  destruct GIS as [[]|e].
  2:{ exists []. rewrite logged_nil. simpl. split_and!; [done|done|lia|done]. }
  rewrite bind_run, lift_run.
  destruct (content_search file_name file_format) as [found|e].
  2:{ exists []. rewrite logged_nil. simpl. split_and!; [done|done|lia|done]. }
  rewrite bind_run, lift_run.
  destruct (py_index found 0) as [data_portal|e].
  2:{ exists []. rewrite logged_nil. simpl. split_and!; [done|done|lia|done]. }
  unfold update. run.
  destruct (item_update _ _) as [[]|e]; run.
  - eexists. split; [reflexivity|]. simpl. split_and!; [done|lia|done].
  - eexists. split; [reflexivity|]. simpl. split_and!; [done|lia|done].
  - eexists. split; [reflexivity|]. simpl. split_and!; [done|lia|done].
Qed.

End GetDataMore.

(** ** GetPhotos: what every run keeps *)

Lemma same_proj_refl {X} (g : Event → option X) (w : World) : same_proj g w w.
Proof. reflexivity. Qed.

Lemma same_proj_trans {X} (g : Event → option X) (a b c : World) :
  same_proj g a b → same_proj g b c → same_proj g a c.
Proof. unfold same_proj. congruence. Qed.

Lemma same_proj_logged {X} (g : Event → option X) (w : World) (e : Event) :
  g e = None → same_proj g w (logged w [e]).
Proof.
  intros He. unfold same_proj, logged. simpl.
  rewrite omap_app. simpl. rewrite He. by rewrite app_nil_r.
Qed.

Lemma same_proj_makedirs {X} (g : Event → option X) (w : World) (p : string) :
  g (EvMakedirs p) = None → same_proj g w (os_makedirs p w).1.
Proof. intros He. by apply (same_proj_logged g w (EvMakedirs p)) in He. Qed.

Lemma same_proj_downloaded {X} (g : Event → option X) (w : World) (p data : string) :
  g (EvDownload p) = None → same_proj g w (downloaded w p data).
Proof. intros He. by apply (same_proj_logged g w (EvDownload p)) in He. Qed.

Lemma same_proj_rename {X} (g : Event → option X) (w : World) (src dst : string) :
  g (EvRename src dst) = None → same_proj g w (os_rename src dst w).1.
Proof.
  intros He. unfold os_rename. destruct (w_files w !! src); [|reflexivity].
  by apply (same_proj_logged g w (EvRename src dst)) in He.
Qed.

Lemma dirs_kept_refl (w : World) : dirs_kept w w.
Proof. unfold dirs_kept. set_solver. Qed.

Lemma dirs_kept_trans (a b c : World) : dirs_kept a b → dirs_kept b c → dirs_kept a c.
Proof. unfold dirs_kept. set_solver. Qed.

Lemma dirs_kept_logged (w : World) (t : list Event) : dirs_kept w (logged w t).
Proof. unfold dirs_kept. simpl. set_solver. Qed.

Lemma dirs_kept_makedirs (w : World) (p : string) : dirs_kept w (os_makedirs p w).1.
Proof. unfold dirs_kept. simpl. set_solver. Qed.

Lemma dirs_kept_downloaded (w : World) (p data : string) : dirs_kept w (downloaded w p data).
Proof. unfold dirs_kept. simpl. set_solver. Qed.

Lemma dirs_kept_rename (w : World) (src dst : string) : dirs_kept w (os_rename src dst w).1.
Proof.
  unfold os_rename, dirs_kept. destruct (w_files w !! src); simpl; set_solver.
Qed.

Section RunShape.
Context `{sdk : ArcGIS}.

Lemma persist_log_ok (log_file : string) (prev : option (list LogRow))
    (nc : Control) (w w' : World) :
  persist_log log_file prev nc w = (w', Ok tt) →
  ∃ rows, w' = written w log_file rows.
Proof.
  destruct (pd_DataFrame nc) as [raw|e] eqn:Hraw.
  - rewrite (persist_log_result _ _ _ _ _ Hraw).
    destruct (exists_in w log_file); [destruct prev|]; intros [= <-]; eauto.
  - unfold persist_log. rewrite bind_run, lift_run, Hraw. discriminate.
Qed.

Lemma persist_log_raise (log_file : string) (prev : option (list LogRow))
    (nc : Control) (w w' : World) (e : exn) :
  persist_log log_file prev nc w = (w', Raise e) → w' = w.
Proof.
  destruct (pd_DataFrame nc) as [raw|e'] eqn:Hraw.
  - rewrite (persist_log_result _ _ _ _ _ Hraw).
    destruct (exists_in w log_file); [destruct prev|]; by intros [= <-].
  - unfold persist_log. rewrite bind_run, lift_run, Hraw. by intros [= <-].
Qed.

Variable R : World → World → Prop.
Hypothesis R_refl : ∀ w, R w w.
Hypothesis R_trans : ∀ a b c, R a b → R b c → R a c.
Hypothesis R_print : ∀ w m, R w (logged w [EvPrint m]).
Hypothesis R_makedirs : ∀ w p, R w (os_makedirs p w).1.
Hypothesis R_download : ∀ w p data, R w (downloaded w p data).
Hypothesis R_rename : ∀ w src dst, R w (os_rename src dst w).1.
Hypothesis R_query : ∀ w fs q, R w (logged w [EvQuery fs q]).

(** A run keeps the relation up to the point where the log is persisted:
    either it raised and the relation holds to its last world, or it
    returned and its last world is the persisted log on top of a world the
    relation holds to. *)
Lemma get_photos_shape (self : GetPhotos) (w w' : World) (r : res unit) :
  get_photos self w = (w', r) →
  (R w w' ∧ ∃ e, r = Raise e)
  ∨ (∃ w2 rows, R w w2 ∧ w' = written w2 (log_path self) rows ∧ r = Ok tt).
Proof.
  unfold get_photos. rewrite bind_run.
  pose proof (preserves_load_cursor R R_refl R_trans R_print (log_path self) w) as Hc.
  destruct (load_cursor (log_path self) w) as [w1 [[prev mo]|e]]; cbn [fst snd] in *.
  2:{ intros [= <- <-]. left. eauto. }
  unfold connect_to_gis. rewrite bind_run, lift_run.
  destruct GIS as [[]|e]; [|intros [= <- <-]; left; eauto].
  rewrite bind_run, lift_run.
  destruct (content_get (gp_id_form self)) as [[survey|]|e]; cbn [deref];
    rewrite ?bind_run, ?lift_run; try (intros [= <- <-]; left; eauto).
  rewrite bind_run, print_run, bind_run.
  set (w1' := logged w1 [EvPrint (MsgFormPhotos (Some survey))]).
  assert (R w w1') as Hw1' by (eapply R_trans; [exact Hc|apply R_print]).
  pose proof (preserves_layers_loop R R_refl R_trans R_print R_makedirs R_download
                R_rename R_query self mo (layers survey ++ tables survey)
                new_objects_control w1') as Hl.
  destruct (layers_loop self mo new_objects_control _ w1') as [w2 [nc|e]];
    cbn [fst snd] in *.
  2:{ intros [= <- <-]. left. split; [by eapply R_trans|eauto]. }
  assert (R w w2) as Hw2 by (by eapply R_trans).
  destruct r as [[]|e]; intros Hp.
  - right. apply persist_log_ok in Hp as [rows ->]. eauto.
  - left. apply persist_log_raise in Hp as ->. eauto.
Qed.

End RunShape.

Lemma frame_written (p log_file : string) (w w2 : World) (rows : list LogRow) :
  p ≠ log_file → frame p w w2 → frame p w (written w2 log_file rows).
Proof.
  intros Hne (t & Ht & Hkeep).
  exists (t ++ [EvToJson log_file rows; EvPrint MsgAllDownloaded]). split.
  - unfold written. simpl. by rewrite Ht, app_assoc.
  - rewrite photo_paths_app. unfold photo_paths at 2. simpl. rewrite app_nil_r.
    intros Hfree. destruct (Hkeep Hfree) as [Hf Hd]. split; [|done].
    unfold written. simpl. by rewrite lookup_insert_ne.
Qed.

Section RunFrames.
Context `{sdk : ArcGIS}.

Lemma get_photos_frame (p : string) (self : GetPhotos) (w : World) :
  p ≠ log_path self → frame p w (get_photos self w).1.
Proof.
  intros Hne. destruct (get_photos self w) as [w' r] eqn:Hrun.
  destruct (get_photos_shape (frame p) (frame_refl p) (frame_trans p)
              (λ w m, frame_logged p w (EvPrint m)) (frame_makedirs p)
              (frame_downloaded p) (frame_rename p)
              (λ w fs q, frame_logged p w (EvQuery fs q)) self w w' r Hrun)
    as [[HR _]|(w2 & rows & HR & -> & _)]; [exact HR|].
  by apply frame_written.
Qed.

Lemma get_photos_dirs_kept (self : GetPhotos) (w : World) :
  dirs_kept w (get_photos self w).1.
Proof.
  destruct (get_photos self w) as [w' r] eqn:Hrun.
  destruct (get_photos_shape dirs_kept dirs_kept_refl dirs_kept_trans
              (λ w m, dirs_kept_logged w [EvPrint m]) dirs_kept_makedirs
              dirs_kept_downloaded dirs_kept_rename
              (λ w fs q, dirs_kept_logged w [EvQuery fs q]) self w w' r Hrun)
    as [[HR _]|(w2 & rows & HR & -> & _)]; [exact HR|].
  exact HR.
Qed.

(** However a run of [get_photos] ends, it has removed no directory, and any
    path other than the log that it neither created as a folder (or folder
    ancestor), nor downloaded to, nor renamed from or to, holds what it held
    before and is a directory exactly if it was. *)
Theorem run_touches_only_its_paths (self : GetPhotos) (w : World) :
  ∃ t : list Event,
    w_trace (get_photos self w).1 = w_trace w ++ t
    ∧ w_dirs w ⊆ w_dirs (get_photos self w).1
    ∧ ∀ p : string,
        p ≠ log_path self → p ∉ photo_paths t →
        w_files (get_photos self w).1 !! p = w_files w !! p
        ∧ (p ∈ w_dirs (get_photos self w).1 ↔ p ∈ w_dirs w).
Proof.
  assert (∃ p0 : string, p0 ≠ log_path self) as [p0 Hp0].
  { exists (String "x"%char (log_path self)). intros H.
    apply (f_equal String.length) in H. simpl in H. lia. }
  destruct (get_photos_frame p0 self w Hp0) as (t & Ht & _).
  exists t. split; [exact Ht|]. split; [apply get_photos_dirs_kept|].
  intros p Hp Hfree.
  destruct (get_photos_frame p self w Hp) as (t' & Ht' & Hkeep).
  rewrite Ht in Ht'. apply app_inv_head in Ht'. subst t'. by apply Hkeep.
Qed.

(** A run of [get_photos] that raises has written no log: no [to_json]
    happened, and unless the download loop itself acted on the log's path,
    the log file holds what it held before.  Whatever was downloaded in
    that run is not recorded. *)
Theorem failed_run_writes_no_log (self : GetPhotos) (w w' : World) (e : exn) :
  get_photos self w = (w', Raise e) →
  json_writes (w_trace w') = json_writes (w_trace w)
  ∧ ∀ t : list Event,
      w_trace w' = w_trace w ++ t →
      log_path self ∉ photo_paths t →
      w_files w' !! log_path self = w_files w !! log_path self.
Proof.
  intros Hrun. split.
  - destruct (get_photos_shape (same_proj json_event) (same_proj_refl _)
                (same_proj_trans _)
                (λ w m, same_proj_logged json_event w (EvPrint m) eq_refl)
                (λ w p, same_proj_makedirs json_event w p eq_refl)
                (λ w p d, same_proj_downloaded json_event w p d eq_refl)
                (λ w a b, same_proj_rename json_event w a b eq_refl)
                (λ w fs q, same_proj_logged json_event w (EvQuery fs q) eq_refl)
                self w w' _ Hrun)
      as [[HR _]|(w2 & rows & _ & _ & ?)]; [exact HR|discriminate].
  - intros t Ht Hfree.
    destruct (get_photos_shape (frame (log_path self)) (frame_refl _) (frame_trans _)
                (λ w m, frame_logged _ w (EvPrint m)) (frame_makedirs _)
                (frame_downloaded _) (frame_rename _)
                (λ w fs q, frame_logged _ w (EvQuery fs q)) self w w' _ Hrun)
      as [[(t' & Ht' & Hkeep) _]|(w2 & rows & _ & _ & ?)]; [|discriminate].
    rewrite Ht in Ht'. apply app_inv_head in Ht'. subst t'.
    by destruct (Hkeep Hfree).
Qed.

End RunFrames.

(** ** GetPhotos: runs that find nothing, and the cursor they leave *)

Section NothingNew.
Context `{sdk : ArcGIS}.

Lemma layers_loop_nothing_new (self : GetPhotos) (mo : number) (rel_fs : list Layer) :
  ∀ (nc : Control) (w : World),
    Forall (λ fs, query fs (query_args mo) = Ok [])
           (filter (λ fs, hasAttachments fs = true) rel_fs) →
    layers_loop self mo nc rel_fs w
    = (logged w (no_news mo (filter (λ fs, hasAttachments fs = true) rel_fs)), Ok nc).
Proof.
  induction rel_fs as [|fs rest IH]; intros nc w Hall.
  { simpl. by rewrite logged_nil. }
  cbn [layers_loop]. rewrite bind_run. unfold layer_body.
  destruct (hasAttachments fs) eqn:Hatt.
  - rewrite filter_cons_True in Hall |- * by done.
    apply Forall_cons in Hall as [Hq Hall].
    unfold fs_query. rewrite !bind_run, emit_run, lift_run, Hq. cbn [length Nat.eqb].
    rewrite bind_run, print_run, ret_run, logged_logged.
    rewrite (IH nc _ Hall), logged_logged. reflexivity.
  - rewrite filter_cons_False in Hall |- * by (rewrite Hatt; done).
    rewrite ret_run. by apply IH.
Qed.

(** Running again when the portal has nothing above the cursor: every
    attachment-enabled layer is queried once and answers empty, nothing is
    created, downloaded or renamed, and the log is written back with the
    rows it had; no file or directory differs afterwards. *)
Theorem rerun_with_nothing_new
    (self : GetPhotos) (prev : list LogRow) (survey : Item) (w : World) :
  w_files w !! log_path self = Some (JsonLog prev) →
  GIS = Ok tt →
  content_get (gp_id_form self) = Ok (Some survey) →
  Forall (λ fs, query fs (query_args (series_max (objectid <$> prev))) = Ok [])
         (with_attachments survey) →
  get_photos self w
  = (logged w
       (EvPrint (MsgFormPhotos (Some survey))
        :: no_news (series_max (objectid <$> prev)) (with_attachments survey)
        ++ [EvToJson (log_path self) prev; EvPrint MsgAllDownloaded]),
     Ok tt).
Proof.
  intros Hfile Hgis Hget Hall. unfold get_photos.
  rewrite bind_run, (load_cursor_existing _ _ _ Hfile). cbn [fst snd].
  unfold connect_to_gis. rewrite bind_run, lift_run, Hgis.
  rewrite bind_run, lift_run, Hget. cbn [deref].
  rewrite bind_run, lift_run, bind_run, print_run, bind_run.
  rewrite (layers_loop_nothing_new self _ _ _ _ Hall), logged_logged.
  rewrite (persist_log_result (log_path self) (Some prev) new_objects_control []
             _ eq_refl).
  assert (exists_in (logged w ([EvPrint (MsgFormPhotos (Some survey))]
            ++ no_news (series_max (objectid <$> prev))
                 (filter (λ fs, hasAttachments fs = true) (layers survey ++ tables survey))))
            (log_path self) = true) as ->.
  { rewrite exists_in_logged. unfold exists_in. rewrite Hfile.
    by rewrite bool_decide_eq_true_2 by eauto. }
  unfold written, logged. cbn [w_files w_dirs w_trace fmap list_fmap].
  rewrite app_nil_r, insert_id by done. rewrite <- app_assoc. reflexivity.
Qed.

(** The first query of a run goes to the first attachment-enabled layer,
    however the run goes on. *)
Lemma layers_loop_first_query (self : GetPhotos) (mo : number) (rel_fs : list Layer) :
  ∀ (nc : Control) (w : World) (fs : Layer) (rest : list Layer),
    filter (λ fs, hasAttachments fs = true) rel_fs = fs :: rest →
    ∃ qs, queries (w_trace (layers_loop self mo nc rel_fs w).1)
          = queries (w_trace w) ++ (fs, query_args mo) :: qs.
Proof.
  induction rel_fs as [|a rel IH]; intros nc w fs rest Hf; [discriminate|].
  cbn [layers_loop]. rewrite bind_run. unfold layer_body.
  destruct (hasAttachments a) eqn:Hatt.
  - rewrite filter_cons_True in Hf by done. injection Hf as -> _.
    unfold fs_query. rewrite !bind_run, emit_run, lift_run.
    set (w1 := logged w [EvQuery fs (query_args mo)]).
    assert (queries (w_trace w1) = queries (w_trace w) ++ [(fs, query_args mo)]) as Hw1.
    { subst w1. unfold logged. simpl. by rewrite queries_app. }
    destruct (query fs (query_args mo)) as [feats|e]; cbn [fst snd].
    2:{ exists []. exact Hw1. }
    assert (preserves same_queries
              (if (length feats =? 0)%nat then print MsgNoNewPhotos ;; mret nc
               else features_loop self fs (length feats) nc 0 feats)) as Hm.
    { destruct (length feats =? 0)%nat.
      - intros w0. rewrite bind_run, print_run. simpl.
        by apply same_queries_logged.
      - apply features_loop_same_queries. }
    specialize (Hm w1). unfold same_queries in Hm.
    destruct ((if (length feats =? 0)%nat then print MsgNoNewPhotos ;; mret nc
               else features_loop self fs (length feats) nc 0 feats) w1)
      as [w2 [nc1|e]]; cbn [fst snd] in *.
    + destruct (layers_loop_queries self mo rel nc1 w2) as (fss & Hq & _).
      eexists. rewrite Hq, Hm, Hw1, <- app_assoc. reflexivity.
    + exists []. by rewrite Hm.
  - rewrite filter_cons_False in Hf by (rewrite Hatt; done).
    rewrite ret_run. cbn [fst snd]. by eapply IH.
Qed.

End NothingNew.

Section Cursor.
Context `{sdk : ArcGIS}.

Lemma get_photos_first_query (self : GetPhotos) (w w1 : World)
    (prev : option (list LogRow)) (mo : number) (survey : Item)
    (fs : Layer) (rest : list Layer) :
  load_cursor (log_path self) w = (w1, Ok (prev, mo)) →
  GIS = Ok tt →
  content_get (gp_id_form self) = Ok (Some survey) →
  with_attachments survey = fs :: rest →
  ∃ qs, queries (w_trace (get_photos self w).1)
        = queries (w_trace w) ++ (fs, query_args mo) :: qs.
Proof.
  intros Hc Hgis Hget Hfs.
  pose proof (load_cursor_same_queries (log_path self) w) as Hsame.
  rewrite Hc in Hsame. unfold same_queries in Hsame. cbn [fst] in Hsame.
  unfold get_photos. rewrite bind_run, Hc. cbn [fst snd].
  unfold connect_to_gis. rewrite bind_run, lift_run, Hgis.
  rewrite bind_run, lift_run, Hget. cbn [deref].
  rewrite bind_run, lift_run, bind_run, print_run, bind_run.
  set (w2 := logged w1 [EvPrint (MsgFormPhotos (Some survey))]).
  assert (queries (w_trace w2) = queries (w_trace w)) as Hw2.
  { subst w2. unfold logged. simpl. by rewrite queries_app, app_nil_r. }
  destruct (layers_loop_first_query self mo (layers survey ++ tables survey)
              new_objects_control w2 fs rest Hfs) as [qs Hqs].
  rewrite Hw2 in Hqs. exists qs.
  destruct (layers_loop self mo new_objects_control _ w2) as [w3 [nc|e]];
    cbn [fst snd] in *; [|exact Hqs].
  pose proof (persist_log_same_queries (log_path self) prev nc w3) as Hp.
  unfold same_queries in Hp. by rewrite Hp.
Qed.

(** A first run that finds no record leaves a log with no rows, and the run
    after it takes [nan] for its cursor: its first query asks for
    [objectid > nan]. *)
Theorem empty_log_gives_nan_cursor
    (self : GetPhotos) (survey : Item) (fs : Layer) (rest : list Layer) (w : World) :
  exists_in w (log_path self) = false →
  GIS = Ok tt →
  content_get (gp_id_form self) = Ok (Some survey) →
  with_attachments survey = fs :: rest →
  Forall (λ fs, query fs (query_args (Int 0)) = Ok []) (with_attachments survey) →
  ∃ w', get_photos self w = (w', Ok tt)
        ∧ w_files w' !! log_path self = Some (JsonLog [])
        ∧ ∃ qs, queries (w_trace (get_photos self w').1)
                = queries (w_trace w')
                  ++ (fs, mk_query "created_date" "objectid > nan" false "objectid ASC")
                     :: qs.
Proof.
  intros Hex Hgis Hget Hfs Hall.
  assert (∃ w', get_photos self w = (w', Ok tt)
                ∧ w_files w' !! log_path self = Some (JsonLog [])) as (w' & Hrun & Hlog).
  { unfold get_photos.
    rewrite bind_run, (load_cursor_absent _ _ Hex). cbn [fst snd].
    unfold connect_to_gis. rewrite bind_run, lift_run, Hgis.
    rewrite bind_run, lift_run, Hget. cbn [deref].
    rewrite bind_run, lift_run, bind_run, print_run, bind_run, logged_logged.
    rewrite (layers_loop_nothing_new self _ _ _ _ Hall), logged_logged.
    rewrite (persist_log_result (log_path self) None new_objects_control [] _ eq_refl).
    rewrite exists_in_logged, Hex. eexists. split; [reflexivity|].
    unfold written. simpl. apply lookup_insert_eq. }
  exists w'. split; [exact Hrun|]. split; [exact Hlog|].
  exact (get_photos_first_query self w' w' (Some []) NaN survey fs rest
           (load_cursor_existing _ _ _ Hlog) Hgis Hget Hfs).
Qed.

(** With [folder_name] left at its default [None], handling any feature
    raises TypeError right after the progress message, before a folder is
    made or a row is noted; so such a run can only return when every
    attachment-enabled layer answered with no feature at all. *)
Theorem default_folder_name_stops_at_first_feature (self : GetPhotos) :
  gp_folder_name self = None →
  (∀ (fs : Layer) (n : nat) (nc : Control) (indice : nat) (f : Feature) (w : World),
     feature_body self fs n nc indice f w
     = (logged w [EvPrint (MsgDownloading (indice + 1) n)], Raise TypeError))
  ∧ (∀ w w' : World,
       get_photos self w = (w', Ok tt) →
       ∃ prev mo survey,
         (load_cursor (log_path self) w).2 = Ok (prev, mo)
         ∧ content_get (gp_id_form self) = Ok (Some survey)
         ∧ Forall (λ fs, query fs (query_args mo) = Ok []) (with_attachments survey)).
Proof.
  intros Hnone. split.
  - intros. unfold feature_body, final_folder_of. rewrite Hnone.
    rewrite bind_run, print_run. reflexivity.
  - intros w w' Hrun.
    apply get_photos_ok in Hrun
      as (w1 & prev & mo & survey & w2 & featss & raws & Hc & Hget & _ & Hqs & Hraws & _).
    exists prev, mo, survey. rewrite Hc. split_and!; [done|done|].
    assert (concat featss = []) as Hnil.
    { destruct (concat featss) as [|f l]; [done|].
      apply Forall2_cons_inv_l in Hraws as (r & ? & (_ & _ & _ & Hfolder) & _ & _).
      unfold final_folder_of in Hfolder. rewrite Hnone in Hfolder. discriminate. }
    clear Hraws. revert Hqs Hnil. generalize (with_attachments survey).
    induction featss as [|feats featss IH]; intros fss Hqs Hnil.
    + apply Forall2_nil_inv_r in Hqs as ->. constructor.
    + apply Forall2_cons_inv_r in Hqs as (fs & fss' & Hq & Hqs & ->).
      simpl in Hnil. apply app_eq_nil in Hnil as [-> Hnil].
      constructor; [exact Hq|by apply IH].
Qed.

(** A failed login stops every operation before any remote request and
    before any local write: the constructor of [GetData] and
    [upload_to_portal] leave the world as it was, and [get_photos] has at
    most printed that the log is missing. *)
Theorem login_failure_stops_everything (e : exn) :
  GIS = Raise e →
  (∀ (id_form save_directory : string) (prefix : option string) (w : World),
     GetData_init id_form save_directory prefix w = (w, Raise e))
  ∧ (∀ (upload_directory file_name file_format : string) (w : World),
       upload_to_portal upload_directory file_name file_format w = (w, Raise e))
  ∧ (∀ (self : GetPhotos) (w : World),
       get_photos self w = (w, Raise e)
       ∨ get_photos self w = (w, Raise ValueError)
       ∨ get_photos self w = (logged w [EvPrint MsgLogNotFound], Raise e)).
Proof.
  intros Hgis. split_and!.
  - intros. unfold GetData_init, connect_to_gis. by rewrite bind_run, lift_run, Hgis.
  - intros. unfold upload_to_portal, connect_to_gis. by rewrite bind_run, lift_run, Hgis.
  - intros self w. unfold get_photos, load_cursor, os_path_exists, connect_to_gis.
    rewrite !bind_run. destruct (exists_in w (log_path self)).
    + rewrite bind_run. unfold read_json.
      destruct (w_files w !! log_path self) as [[rows|?|?]|]; cbn [fst snd];
        rewrite ?ret_run, ?bind_run, ?lift_run, ?Hgis; auto.
    + rewrite bind_run, print_run, ret_run. cbn [fst snd].
      rewrite bind_run, lift_run, Hgis. auto.
Qed.

End Cursor.

(** ** The new name of a downloaded file *)

Lemma length_append (a b : string) :
  String.length (a +:+ b) = (String.length a + String.length b)%nat.
Proof.
  induction a as [|c a IH]; [done|]. rewrite append_cons. simpl. by rewrite IH.
Qed.

Lemma startswith_length (p s : string) :
  startswith p s = true → (String.length p ≤ String.length s)%nat.
Proof.
  revert s. induction p as [|a p IH]; intros [|b s]; simpl; try done; try lia.
  destruct (decide (a = b)); [|done]. intros H. apply IH in H. lia.
Qed.

Lemma replace_go_length (old new : string) (s : string) :
  (1 ≤ String.length old ≤ String.length new)%nat →
  ∀ k, (String.length s ≤ String.length (replace_go old new k s) + k)%nat.
Proof.
  intros Hlen. induction s as [|c s IH]; intros k; [simpl; lia|].
  cbn [replace_go]. destruct k as [|k].
  - destruct (startswith old (String c s)).
    + rewrite length_append. specialize (IH (String.length old - 1)%nat).
      simpl. lia.
    + specialize (IH O). simpl. lia.
  - specialize (IH k). simpl. lia.
Qed.

Lemma replace_longer (old new s : string) :
  (1 ≤ String.length old)%nat → (String.length old < String.length new)%nat →
  occurs old s = true →
  (String.length s < String.length (replace s old new))%nat.
Proof.
  intros H1 Hlt. unfold replace. induction s as [|c s IH]; intros Hocc.
  - destruct old; simpl in *; [lia|done].
  - cbn [occurs] in Hocc. cbn [replace_go].
    destruct (startswith old (String c s)) eqn:Hhere.
    + rewrite length_append.
      pose proof (replace_go_length old new s ltac:(lia) (String.length old - 1)%nat).
      simpl. lia.
    + simpl in Hocc. apply IH in Hocc. simpl. lia.
Qed.

(** The name is left as it is exactly when [.jpg] occurs nowhere in the
    path; otherwise the new name is longer, so it is another name. *)
Lemma final_name_same_iff (path : string) (oid : Z) :
  final_name path oid = path ↔ occurs ".jpg" path = false.
Proof.
  split.
  - intros Hsame. destruct (occurs ".jpg" path) eqn:Hocc; [|done].
    apply (replace_longer ".jpg" ("-oid_" +:+ pretty oid +:+ ".jpg")) in Hocc.
    + unfold final_name in Hsame. rewrite Hsame in Hocc. lia.
    + simpl. lia.
    + rewrite !length_append. simpl. lia.
  - apply replace_absent.
Qed.

Section AttachmentCases.
Context `{sdk : ArcGIS}.

(** What becomes of one downloaded attachment.  A path without [.jpg] is
    kept under its downloaded name and reported as already existing, on any
    machine.  A path with [.jpg] is moved to its new name when that name is
    free and the directory of the new name exists; when the name is taken,
    the taken file keeps its content, the download stays under its original
    name and the message is printed. *)
Theorem attachment_outcomes
    (fs : Layer) (object_oid : Z) (final_folder : string) (a : AttachmentInfo)
    (name data : string) (w : World) :
  attachments_download fs object_oid (att_id a) = Ok (name, data) →
  (occurs ".jpg" (os_path_join final_folder name) = false →
     attachment_body fs object_oid final_folder a w
     = (logged (downloaded w (os_path_join final_folder name) data)
          [EvPrint (MsgFileExists object_oid (os_path_join final_folder name))],
        Ok tt))
  ∧ (occurs ".jpg" (os_path_join final_folder name) = true →
     exists_in w (final_name (os_path_join final_folder name) object_oid) = false →
     os_path_dirname (final_name (os_path_join final_folder name) object_oid)
       ∈ w_dirs w →
     attachment_body fs object_oid final_folder a w
     = (mk_world
          (<[final_name (os_path_join final_folder name) object_oid := Blob data]>
             (delete (os_path_join final_folder name) (w_files w)))
          (w_dirs w)
          (w_trace w ++ [EvDownload (os_path_join final_folder name);
                         EvRename (os_path_join final_folder name)
                           (final_name (os_path_join final_folder name) object_oid)]),
        Ok tt))
  ∧ (occurs ".jpg" (os_path_join final_folder name) = true →
     exists_in w (final_name (os_path_join final_folder name) object_oid) = true →
     attachment_body fs object_oid final_folder a w
     = (logged (downloaded w (os_path_join final_folder name) data)
          [EvPrint (MsgFileExists object_oid
                      (final_name (os_path_join final_folder name) object_oid))],
        Ok tt)
     ∧ w_files (downloaded w (os_path_join final_folder name) data)
         !! final_name (os_path_join final_folder name) object_oid
       = w_files w !! final_name (os_path_join final_folder name) object_oid).
Proof.
  intros Hd. set (src := os_path_join final_folder name).
  assert (attachment_body fs object_oid final_folder a w
          = (if negb (exists_in (downloaded w src data) (final_name src object_oid))
             then os_rename src (final_name src object_oid)
             else print (MsgFileExists object_oid (final_name src object_oid)))
              (downloaded w src data)) as Hbody.
  { unfold attachment_body.
    rewrite bind_run, (download_run _ _ _ _ _ _ _ Hd).
    rewrite bind_run, lift_run, py_index_head, bind_run. reflexivity. }
  split_and!.
  - intros Hocc. apply (final_name_same_iff src object_oid) in Hocc.
    rewrite Hbody, Hocc.
    assert (exists_in (downloaded w src data) src = true) as ->; [|reflexivity].
    unfold exists_in, downloaded. simpl. rewrite lookup_insert_eq.
    by rewrite bool_decide_eq_true_2 by eauto.
  - intros Hocc Hfree _.
    assert (final_name src object_oid ≠ src) as Hne
      by (intros E; apply final_name_same_iff in E; congruence).
    rewrite Hbody, exists_in_downloaded_ne, Hfree by done.
    cbn [negb]. unfold os_rename, downloaded. cbn [w_files w_dirs w_trace].
    rewrite lookup_insert_eq, delete_insert_eq, <- app_assoc. reflexivity.
  - intros Hocc Htaken.
    assert (final_name src object_oid ≠ src) as Hne
      by (intros E; apply final_name_same_iff in E; congruence).
    rewrite Hbody, (exists_in_downloaded_mono _ _ _ _ Htaken). split; [reflexivity|].
    unfold downloaded. simpl. by rewrite lookup_insert_ne.
Qed.

(** The folder of a feature is [save_directory], then [folder_name], then
    the UTC day of [created_date] written as two-digit year, month and day
    with dashes: the same day as in the date text of the log row. *)
Theorem final_folder_is_dated
    (self : GetPhotos) (folder_name : string) (f : Feature) :
  gp_folder_name self = Some folder_name →
  0 ≤ f_created_date f < 253402300800000 →
  ∃ date,
    final_folder_of self f
    = Ok (os_path_join (os_path_join (gp_save_directory self) folder_name) date)
    ∧ date = pad2 (dt_year (to_datetime_ms (f_created_date f)) mod 100) +:+ "-"
             +:+ pad2 (dt_month (to_datetime_ms (f_created_date f))) +:+ "-"
             +:+ pad2 (dt_day (to_datetime_ms (f_created_date f)))
    ∧ has_shape "dd-dd-dd" date = true.
Proof.
  intros Hname Hcd. unfold final_folder_of. rewrite Hname. cbn [as_str].
  eexists. split; [reflexivity|].
  fold (to_datetime_ms (f_created_date f)).
  destruct (to_datetime_fields _ Hcd) as (Hd & Hm & Hy & _).
  generalize dependent (to_datetime_ms (f_created_date f)). intros d Hd Hm Hy.
  assert (strftime "%y-%m-%d" d
          = pad2 (dt_year d mod 100) +:+ "-" +:+ pad2 (dt_month d) +:+ "-"
            +:+ pad2 (dt_day d)) as ->.
  { cbn [strftime]. repeat (rewrite decide_True by done || rewrite decide_False by done).
    unfold directive.
    repeat (rewrite decide_True by done || rewrite decide_False by done).
    by rewrite append_empty_r. }
  split; [reflexivity|].
  change "dd-dd-dd" with ("dd" +:+ "-" +:+ "dd" +:+ "-" +:+ "dd").
  repeat (apply has_shape_app;
          [first [apply pad2_digits; Z.div_mod_to_equations; lia | reflexivity]|]).
  apply pad2_digits; lia.
Qed.

End AttachmentCases.

(** ** GetPhotos: what a completed run downloaded *)

Lemma downloads_app (t1 t2 : list Event) :
  downloads (t1 ++ t2) = downloads t1 ++ downloads t2.
Proof. apply omap_app. Qed.

Section Downloads.
Context `{sdk : ArcGIS}.

Lemma attachment_body_ok (fs : Layer) (oid : Z) (folder : string)
    (a : AttachmentInfo) (w w' : World) :
  attachment_body fs oid folder a w = (w', Ok tt) →
  ∃ p, attachment_saved fs oid folder a p
       ∧ downloads (w_trace w') = downloads (w_trace w) ++ [p].
Proof.
  unfold attachment_body. rewrite bind_run.
  destruct (attachments_download fs oid (att_id a)) as [[name data]|e] eqn:Hd.
  2:{ unfold download. rewrite bind_run, lift_run, Hd. discriminate. }
  rewrite (download_run _ _ _ _ _ _ _ Hd).
  rewrite bind_run, lift_run, py_index_head, bind_run. unfold os_path_exists.
  intros Hrun. exists (os_path_join folder name). split; [by exists name, data|].
  destruct (exists_in _ _); cbn [negb] in Hrun.
  - rewrite print_run in Hrun. injection Hrun as <-.
    unfold logged, downloaded. simpl. by rewrite !downloads_app, app_nil_r.
  - unfold os_rename in Hrun. destruct (w_files _ !! _); [|discriminate].
    injection Hrun as <-. unfold downloaded. simpl.
    by rewrite !downloads_app, app_nil_r.
Qed.

Lemma attachments_loop_ok (fs : Layer) (oid : Z) (folder : string)
    (atts : list AttachmentInfo) :
  ∀ w w', attachments_loop fs oid folder atts w = (w', Ok tt) →
          ∃ ps, Forall2 (attachment_saved fs oid folder) atts ps
                ∧ downloads (w_trace w') = downloads (w_trace w) ++ ps.
Proof.
  induction atts as [|a rest IH]; intros w w' H.
  - simpl in H. rewrite ret_run in H. injection H as <-.
    exists []. rewrite app_nil_r. split; [constructor|done].
  - cbn [attachments_loop] in H. inv_bind H as w1 u Hbody. destruct u.
    apply attachment_body_ok in Hbody as (p & Hp & Hd1).
    apply IH in H as (ps & Hps & Hd2).
    exists (p :: ps). split; [by constructor|].
    rewrite Hd2, Hd1, <- app_assoc. reflexivity.
Qed.

Lemma feature_body_ok (self : GetPhotos) (fs : Layer) (n : nat) (nc nc' : Control)
    (indice : nat) (f : Feature) (w w' : World) :
  feature_body self fs n nc indice f w = (w', Ok nc') →
  ∃ ps, feature_saved self fs f ps
        ∧ downloads (w_trace w') = downloads (w_trace w) ++ ps.
Proof.
  unfold feature_body. intros H.
  inv_bind H as w1 u1 Hprint. rewrite print_run in Hprint. injection Hprint as <- _.
  inv_bind H as w2 folder Hfolder. rewrite lift_run in Hfolder.
  injection Hfolder as <- Hfolder.
  inv_bind H as w3 ex Hex. unfold os_path_exists in Hex. injection Hex as <- _.
  inv_bind H as w4 u2 Hmk.
  assert (downloads (w_trace w4) = downloads (w_trace w)) as Hw4.
  { destruct (negb _) in Hmk.
    - unfold os_makedirs in Hmk. injection Hmk as <- _. simpl.
      by rewrite !downloads_app, !app_nil_r.
    - rewrite ret_run in Hmk. injection Hmk as <- _. simpl.
      by rewrite downloads_app, app_nil_r. }
  inv_bind H as w5 atts Hatts. rewrite lift_run in Hatts. injection Hatts as <- Hatts.
  inv_bind H as w6 u3 Hloop. rewrite ret_run in H. injection H as <- _.
  assert (∃ ps, Forall2 (attachment_saved fs (f_objectid f) folder) atts ps
                ∧ downloads (w_trace w6) = downloads (w_trace w4) ++ ps)
    as (ps & Hps & Hd).
  { destruct (0 <? length atts)%nat eqn:Hlen.
    - destruct u3. by apply attachments_loop_ok in Hloop.
    - apply Nat.ltb_ge in Hlen. assert (atts = []) as -> by (destruct atts; simpl in *; [done|lia]).
      rewrite ret_run in Hloop. injection Hloop as <- _.
      exists []. rewrite app_nil_r. split; [constructor|done]. }
  exists ps. split; [by exists folder, atts|]. by rewrite Hd, Hw4.
Qed.

Lemma features_loop_ok (self : GetPhotos) (fs : Layer) (n : nat)
    (features : list Feature) :
  ∀ (nc : Control) (indice : nat) (w w' : World) (nc' : Control),
    features_loop self fs n nc indice features w = (w', Ok nc') →
    ∃ pss, Forall2 (feature_saved self fs) features pss
           ∧ downloads (w_trace w') = downloads (w_trace w) ++ concat pss.
Proof.
  induction features as [|f rest IH]; intros nc indice w w' nc' H.
  - simpl in H. rewrite ret_run in H. injection H as <- _.
    exists []. simpl. rewrite app_nil_r. split; [constructor|done].
  - cbn [features_loop] in H. inv_bind H as w1 nc1 Hbody.
    apply feature_body_ok in Hbody as (ps & Hps & Hd1).
    apply IH in H as (pss & Hpss & Hd2).
    exists (ps :: pss). split; [by constructor|].
    simpl. rewrite Hd2, Hd1, <- app_assoc. reflexivity.
Qed.

Lemma layers_loop_ok (self : GetPhotos) (mo : number) (rel_fs : list Layer) :
  ∀ (nc : Control) (w w' : World) (nc' : Control),
    layers_loop self mo nc rel_fs w = (w', Ok nc') →
    ∃ psss, Forall2 (layer_saved self mo)
                    (filter (λ fs, hasAttachments fs = true) rel_fs) psss
            ∧ downloads (w_trace w') = downloads (w_trace w) ++ concat (concat psss).
Proof.
  induction rel_fs as [|fs rest IH]; intros nc w w' nc' H.
  - simpl in H. rewrite ret_run in H. injection H as <- _.
    exists []. simpl. rewrite app_nil_r. split; [constructor|done].
  - cbn [layers_loop] in H. inv_bind H as w1 nc1 Hstep. unfold layer_body in Hstep.
    destruct (hasAttachments fs) eqn:Hatt.
    + rewrite filter_cons_True by done.
      inv_bind Hstep as w2 feats Hquery. unfold fs_query in Hquery.
      inv_bind Hquery as w3 u Hemit. rewrite emit_run in Hemit.
      injection Hemit as <- _.
      rewrite lift_run in Hquery. injection Hquery as <- Hq.
      assert (∃ pss, Forall2 (feature_saved self fs) feats pss
                     ∧ downloads (w_trace w1) = downloads (w_trace w) ++ concat pss)
        as (pss & Hpss & Hd1).
      { destruct (length feats =? 0)%nat eqn:Hlen.
        - apply Nat.eqb_eq, nil_length_inv in Hlen as ->.
          inv_bind Hstep as w4 u4 Hprint. rewrite print_run in Hprint.
          injection Hprint as <- _. rewrite ret_run in Hstep. injection Hstep as <- _.
          exists []. simpl. rewrite app_nil_r. split; [constructor|].
          by rewrite !downloads_app, !app_nil_r.
        - apply features_loop_ok in Hstep as (pss & Hpss & Hd).
          exists pss. split; [done|]. rewrite Hd. simpl.
          by rewrite downloads_app, app_nil_r. }
      apply IH in H as (psss & Hpsss & Hd2).
      exists (pss :: psss). split.
      * constructor; [by exists feats|done].
      * simpl. rewrite concat_app, Hd2, Hd1, <- !app_assoc. reflexivity.
    + rewrite filter_cons_False by (rewrite Hatt; done).
      rewrite ret_run in Hstep. injection Hstep as Hw Hnc. subst. by eapply IH.
Qed.

(** A run that returns, unfolded up to its two phases. *)
Lemma get_photos_ok_loop (self : GetPhotos) (w w' : World) :
  get_photos self w = (w', Ok tt) →
  ∃ w1 prev mo survey w2 nc,
    load_cursor (log_path self) w = (w1, Ok (prev, mo))
    ∧ GIS = Ok tt
    ∧ content_get (gp_id_form self) = Ok (Some survey)
    ∧ layers_loop self mo new_objects_control (layers survey ++ tables survey)
        (logged w1 [EvPrint (MsgFormPhotos (Some survey))]) = (w2, Ok nc)
    ∧ persist_log (log_path self) prev nc w2 = (w', Ok tt).
Proof.
  unfold get_photos. intros H.
  inv_bind H as w1 cursor Hcursor. destruct cursor as [prev mo].
  inv_bind H as w2 u Hgis. unfold connect_to_gis in Hgis. rewrite lift_run in Hgis.
  injection Hgis as Hw Hgis. subst w2. destruct u.
  inv_bind H as w2 survey_by_id Hget. rewrite lift_run in Hget.
  injection Hget as Hw Hget. subst w2.
  inv_bind H as w2 survey Hsurvey. rewrite lift_run in Hsurvey.
  injection Hsurvey as Hw Hsurvey. subst w2.
  destruct survey_by_id as [survey'|]; [|discriminate].
  injection Hsurvey as Hs. subst survey'.
  inv_bind H as w2 u2 Hprint. rewrite print_run in Hprint.
  injection Hprint as Hw _. subst w2.
  inv_bind H as w2 nc Hloop. cbn [fst snd] in *.
  exists w1, prev, mo, survey, w2, nc. by split_and!.
Qed.

(** In a run that returns, the downloads are exactly these, in this order:
    for each attachment-enabled layer or table, for each feature its query
    answered, for each attachment listed for the feature, one download into
    the feature's dated folder under the attachment's own name. *)
Theorem completed_run_downloads (self : GetPhotos) (w w' : World) :
  get_photos self w = (w', Ok tt) →
  ∃ prev mo survey psss,
    (load_cursor (log_path self) w).2 = Ok (prev, mo)
    ∧ content_get (gp_id_form self) = Ok (Some survey)
    ∧ Forall2 (layer_saved self mo) (with_attachments survey) psss
    ∧ downloads (w_trace w') = downloads (w_trace w) ++ concat (concat psss).
Proof.
  intros Hrun.
  apply get_photos_ok_loop in Hrun
    as (w1 & prev & mo & survey & w2 & nc & Hc & _ & Hget & Hloop & Hp).
  apply layers_loop_ok in Hloop as (psss & Hpsss & Hd).
  apply persist_log_ok in Hp as [rows ->].
  exists prev, mo, survey, psss. rewrite Hc. split_and!; try done.
  pose proof (preserves_load_cursor (same_proj download_event) (same_proj_refl _)
                (same_proj_trans _)
                (λ w m, same_proj_logged download_event w (EvPrint m) eq_refl)
                (log_path self) w) as Hsame.
  rewrite Hc in Hsame. unfold same_proj in Hsame. cbn [fst] in Hsame.
  unfold written. simpl. rewrite downloads_app, Hd. simpl.
  rewrite downloads_app. simpl. rewrite !app_nil_r.
  f_equal. exact Hsame.
Qed.

End Downloads.

(** ** GetPhotos: when a run returns, and how far the cursor moves *)

Lemma foldr_max_elem (x z : Z) (l : list Z) : z ∈ l → z ≤ foldr Z.max x l.
Proof.
  induction l as [|a l IH]; intros Hin; [by apply not_elem_of_nil in Hin|].
  apply elem_of_cons in Hin as [->|Hin]; simpl; [lia|]. apply IH in Hin. lia.
Qed.

Lemma series_max_app_gt (col more : list Z) (m z : Z) :
  series_max col = Int m → z ∈ more → m < z →
  ∃ m', series_max (col ++ more) = Int m' ∧ m < m'.
Proof.
  destruct col as [|x col]; [discriminate|]. simpl. intros [= <-] Hin Hlt.
  eexists. split; [reflexivity|].
  assert (z ≤ foldr Z.max x (col ++ more)) by (apply foldr_max_elem; set_solver).
  lia.
Qed.

Section Returns.
Context `{sdk : ArcGIS}.

(** A run that returns, started with a log and not acting on the log's own
    path, leaves the old rows followed by one row per answered feature. *)
Lemma get_photos_appends
    (self : GetPhotos) (prev : list LogRow) (w w' : World) (t : list Event) :
  w_files w !! log_path self = Some (JsonLog prev) →
  get_photos self w = (w', Ok tt) →
  w_trace w' = w_trace w ++ t →
  log_path self ∉ photo_paths t →
  ∃ survey featss news,
    content_get (gp_id_form self) = Ok (Some survey)
    ∧ Forall2 (λ fs feats,
                 query fs (query_args (series_max (objectid <$> prev))) = Ok feats)
              (with_attachments survey) featss
    ∧ Forall2 (entry_of self) (concat featss) news
    ∧ w_files w' !! log_path self = Some (JsonLog (prev ++ news)).
Proof.
  intros Hfile Hrun Ht Hfree.
  apply get_photos_ok in Hrun
    as (w1 & prev0 & mo & survey & w2 & featss & raws & Hc & Hget & Hw2 & Hqs & Hraws & Hp).
  rewrite (load_cursor_existing _ _ _ Hfile) in Hc.
  injection Hc as <- <- <-.
  pose proof (layers_loop_frame (log_path self) self (series_max (objectid <$> prev))
                (layers survey ++ tables survey) new_objects_control
                (logged w [EvPrint (MsgFormPhotos (Some survey))])) as Hframe.
  rewrite Hw2 in Hframe. destruct Hframe as (t2 & Ht2 & Hkeep).
  rewrite (persist_log_result _ _ _ _ _ (pd_DataFrame_of raws)) in Hp.
  assert (∀ rows, w' = written w2 (log_path self) rows →
            w_files w2 !! log_path self = Some (JsonLog prev)) as Hsame.
  { intros rows ->. unfold written in Ht. simpl in Ht. rewrite Ht2 in Ht.
    unfold logged in Ht. simpl in Ht. rewrite <- !app_assoc in Ht.
    apply app_inv_head in Ht. subst t.
    rewrite !photo_paths_app in Hfree. unfold photo_paths at 1 3 in Hfree.
    simpl in Hfree. rewrite app_nil_r in Hfree.
    destruct (Hkeep Hfree) as [Hf _]. by rewrite Hf. }
  assert (Forall2 (entry_of self) (concat featss) (format_row <$> raws)) as Hnews.
  { apply Forall2_fmap_r. eapply Forall2_impl; [exact Hraws|].
    intros f r. apply entry_of_format. }
  destruct (exists_in w2 (log_path self)) eqn:Hex.
  - injection Hp as <-.
    exists survey, featss, (format_row <$> raws).
    split_and!; try done. apply lookup_insert_eq.
  - injection Hp as Hw'. symmetry in Hw'. apply Hsame in Hw'.
    unfold exists_in in Hex. rewrite Hw' in Hex.
    rewrite bool_decide_eq_true_2 in Hex by eauto. discriminate.
Qed.

(** With a portal that honours the where clause of the run (every feature
    it answers has an objectid above the cursor [M]), every row a completed
    run adds has an objectid above [M]: the largest objectid of the log
    stays [M] when nothing was added and grows when something was, so no
    later run asks for these records again. *)
Theorem cursor_advances_with_new_rows
    (self : GetPhotos) (prev : list LogRow) (M : Z) (survey : Item)
    (w w' : World) (t : list Event) :
  w_files w !! log_path self = Some (JsonLog prev) →
  series_max (objectid <$> prev) = Int M →
  content_get (gp_id_form self) = Ok (Some survey) →
  Forall (λ fs, ∀ feats, query fs (query_args (Int M)) = Ok feats →
                         Forall (λ f, M < f_objectid f) feats)
         (with_attachments survey) →
  get_photos self w = (w', Ok tt) →
  w_trace w' = w_trace w ++ t →
  log_path self ∉ photo_paths t →
  ∃ news,
    w_files w' !! log_path self = Some (JsonLog (prev ++ news))
    ∧ Forall (λ row, M < objectid row) news
    ∧ (news = [] → series_max (objectid <$> (prev ++ news)) = Int M)
    ∧ (news ≠ [] →
       ∃ M', series_max (objectid <$> (prev ++ news)) = Int M' ∧ M < M').
Proof.
  intros Hfile Hmax Hget Hhonest Hrun Ht Hfree.
  destruct (get_photos_appends self prev w w' t Hfile Hrun Ht Hfree)
    as (survey' & featss & news & Hget' & Hqs & Hnews & Hlog).
  rewrite Hget in Hget'. injection Hget' as <-. rewrite Hmax in Hqs.
  assert (Forall (λ f, M < f_objectid f) (concat featss)) as Habove.
  { clear Hnews Hlog. revert Hhonest Hqs. generalize (with_attachments survey).
    induction featss as [|feats featss IH]; intros fss Hhonest Hqs; [constructor|].
    apply Forall2_cons_inv_r in Hqs as (fs & fss' & Hq & Hqs & ->).
    apply Forall_cons in Hhonest as [Hfs Hhonest].
    simpl. apply Forall_app. split; [by apply Hfs|by eapply IH]. }
  assert (Forall (λ row, M < objectid row) news) as Hrows.
  { clear Hlog. induction Hnews as [|f row fs rows (Hoid & _) _ IH]; [constructor|].
    apply Forall_cons in Habove as [Hf Habove].
    constructor; [lia|by apply IH]. }
  exists news. split_and!; [done|done|..].
  - intros ->. by rewrite app_nil_r.
  - intros Hne. destruct news as [|row news]; [done|].
    apply Forall_cons in Hrows as [Hrow _]. rewrite fmap_app.
    apply (series_max_app_gt _ _ M (objectid row)); [done|set_solver|done].
Qed.

End Returns.

(** ** The further properties on the reference portal *)

Section OnPortalMore.
Import Portal Cases.
Local Existing Instance reference.

Lemma unknown_form_fails_at_first_fetch_witness :
  GIS = Ok tt
  ∧ content_get "no-such-form" = Ok None
  ∧ GetData_init "no-such-form" "out" None fresh
    = (logged fresh [EvPrint (MsgFormToDownload None)],
       Ok (mk_GetData "no-such-form" None "out" None))
  ∧ get_main_layer (mk_GetData "no-such-form" None "out" None) 0 false None fresh
    = (fresh, Raise AttributeError).
Proof.
  do 2 (split; [reflexivity|]).
  destruct (unknown_form_fails_at_first_fetch (sdk := reference) "no-such-form" "out"
              None fresh eq_refl eq_refl) as [Hinit Hfetch].
  split; [exact Hinit|]. exact (proj1 (Hfetch 0 false None fresh)).
Defined.

Lemma fetch_without_saving_witness :
  gd_survey_by_id data = Some survey
  ∧ py_index (layers survey) 0 = Ok points
  ∧ get_main_layer data 0 false (Some "points") fresh = (fresh, query_as_df points)
  ∧ get_main_layer data 0 true None fresh = (fresh, Raise TypeError).
Proof.
  do 2 (split; [reflexivity|]).
  destruct (proj1 (fetch_without_saving data survey 0 points (Some "points") fresh
                     eq_refl) eq_refl) as [Hplain Hnone].
  split; [exact Hplain|]. apply (Hnone points_df). vm_compute. reflexivity.
Defined.

Lemma negative_position_counts_from_end_witness :
  gd_survey_by_id data = Some survey
  ∧ 1 ≤ 1 ≤ Z.of_nat (length (layers survey))
  ∧ get_main_layer data (- 1) false None fresh
    = get_main_layer data (Z.of_nat (length (layers survey)) - 1) false None fresh.
Proof.
  split; [reflexivity|]. split; [simpl; lia|].
  apply (proj1 (negative_position_counts_from_end data survey 1 false None fresh
                  eq_refl)).
  simpl. lia.
Defined.

Lemma failed_run_writes_no_log_witness :
  get_photos (GetPhotos_default "form1") fresh
  = ((get_photos (GetPhotos_default "form1") fresh).1, Raise TypeError)
  ∧ json_writes (w_trace (get_photos (GetPhotos_default "form1") fresh).1)
    = json_writes (w_trace fresh)
  ∧ w_files (get_photos (GetPhotos_default "form1") fresh).1
      !! log_path (GetPhotos_default "form1")
    = w_files fresh !! log_path (GetPhotos_default "form1").
Proof.
  assert (get_photos (GetPhotos_default "form1") fresh
          = ((get_photos (GetPhotos_default "form1") fresh).1, Raise TypeError))
    as Hrun by (vm_compute; reflexivity).
  destruct (failed_run_writes_no_log (GetPhotos_default "form1") fresh _ _ Hrun)
    as [Hjson Hlog].
  split; [exact Hrun|]. split; [exact Hjson|].
  apply (Hlog (w_trace (get_photos (GetPhotos_default "form1") fresh).1)).
  - vm_compute. reflexivity.
  - refine (bool_decide_eq_false_1 (_ ∈ _) _). vm_compute. reflexivity.
Defined.

Lemma rerun_with_nothing_new_witness :
  GIS = Ok tt
  ∧ content_get (gp_id_form photos) = Ok (Some survey)
  ∧ get_photos photos up_to_date
    = (logged up_to_date
         [EvPrint (MsgFormPhotos (Some survey));
          EvQuery points (mk_query "created_date" "objectid > 8" false "objectid ASC");
          EvPrint MsgNoNewPhotos;
          EvToJson "./photos/log_photos.json"
            [row5;
             mk_row 7 "15/06/2023 12:00:05" "form1" "./photos/team/23-06-15";
             mk_row 8 "15/06/2023 12:00:05" "form1" "./photos/team/23-06-15"];
          EvPrint MsgAllDownloaded],
       Ok tt).
Proof.
  do 2 (split; [reflexivity|]).
  refine (rerun_with_nothing_new photos _ survey up_to_date eq_refl eq_refl eq_refl _).
  constructor; [vm_compute; reflexivity|constructor].
Defined.

Lemma empty_log_gives_nan_cursor_witness :
  exists_in fresh (log_path photos) = false
  ∧ @with_attachments survey = [points]
  ∧ @query (sdk empty_remote) points (query_args (Int 0)) = Ok []
  ∧ ∃ w', @get_photos (sdk empty_remote) photos fresh = (w', Ok tt)
          ∧ w_files w' !! log_path photos = Some (JsonLog [])
          ∧ ∃ qs, queries (w_trace (@get_photos (sdk empty_remote) photos w').1)
                  = queries (w_trace w')
                    ++ (points,
                        mk_query "created_date" "objectid > nan" false "objectid ASC")
                       :: qs.
Proof.
  split; [reflexivity|]. split; [reflexivity|]. split; [reflexivity|].
  apply (@empty_log_gives_nan_cursor (sdk empty_remote) photos survey points [] fresh);
    try reflexivity.
  constructor; [reflexivity|constructor].
Defined.

Lemma default_folder_name_stops_at_first_feature_witness :
  gp_folder_name (GetPhotos_default "form1") = None
  ∧ feature_body (GetPhotos_default "form1") points 3 new_objects_control 0
      (mk_feature 5 1686744005000) fresh
    = (logged fresh [EvPrint (MsgDownloading 1 3)], Raise TypeError)
  ∧ (get_photos (GetPhotos_default "form1") fresh).2 = Raise TypeError
  ∧ ∃ prev mo survey,
      (load_cursor (log_path (GetPhotos_default "form1")) up_to_date).2 = Ok (prev, mo)
      ∧ content_get "form1" = Ok (Some survey)
      ∧ Forall (λ fs, query fs (query_args mo) = Ok []) (with_attachments survey).
Proof.
  split; [reflexivity|].
  destruct (default_folder_name_stops_at_first_feature (GetPhotos_default "form1")
              eq_refl) as [Hbody Hrun].
  split; [apply Hbody|]. split; [vm_compute; reflexivity|].
  apply (Hrun up_to_date (get_photos (GetPhotos_default "form1") up_to_date).1).
  vm_compute. reflexivity.
Defined.

Lemma login_failure_stops_everything_witness :
  @GIS offline = Raise (SDKError "login")
  ∧ @GetData_init offline "form1" "out" None fresh = (fresh, Raise (SDKError "login"))
  ∧ @upload_to_portal offline "out" "survey" "CSV" fresh
    = (fresh, Raise (SDKError "login"))
  ∧ @get_photos offline photos fresh
    = (logged fresh [EvPrint MsgLogNotFound], Raise (SDKError "login"))
  ∧ @get_photos offline photos synced = (synced, Raise (SDKError "login")).
Proof.
  split; [reflexivity|].
  destruct (@login_failure_stops_everything offline (SDKError "login") eq_refl)
    as (Hinit & Hupload & Hphotos).
  split; [apply Hinit|]. split; [apply Hupload|]. split.
  - destruct (Hphotos photos fresh) as [H|[H|H]]; [| |exact H];
      exfalso; apply (f_equal fst) in H; apply (f_equal w_trace) in H;
      vm_compute in H; discriminate H.
  - destruct (Hphotos photos synced) as [H|[H|H]]; [exact H| |];
      exfalso.
    + apply (f_equal snd) in H. vm_compute in H. discriminate H.
    + apply (f_equal fst) in H. apply (f_equal w_trace) in H.
      vm_compute in H. discriminate H.
Defined.

Lemma attachment_outcomes_witness :
  attachments_download points 5 (att_id (mk_att 2 "sketch.png")) = Ok ("sketch.png", "png-5-2")
  ∧ occurs ".jpg" (os_path_join "./photos/team/23-06-14" "sketch.png") = false
  ∧ attachment_body points 5 "./photos/team/23-06-14" (mk_att 2 "sketch.png") fresh
    = (logged (downloaded fresh (os_path_join "./photos/team/23-06-14" "sketch.png")
                 "png-5-2")
         [EvPrint (MsgFileExists 5 (os_path_join "./photos/team/23-06-14" "sketch.png"))],
       Ok tt)
  ∧ attachments_download points 7 (att_id (mk_att 1 "Photo 1.jpg"))
    = Ok ("Photo 1.jpg", "jpeg-7-1")
  ∧ occurs ".jpg" (os_path_join "./photos/team/23-06-15" "Photo 1.jpg") = true
  ∧ exists_in Machines.foldered
      (final_name (os_path_join "./photos/team/23-06-15" "Photo 1.jpg") 7) = false
  ∧ os_path_dirname (final_name (os_path_join "./photos/team/23-06-15" "Photo 1.jpg") 7)
    = "./photos/team/23-06-15"
  ∧ (attachment_body points 7 "./photos/team/23-06-15" (mk_att 1 "Photo 1.jpg")
       Machines.foldered).2 = Ok tt
  ∧ w_files (attachment_body points 7 "./photos/team/23-06-15" (mk_att 1 "Photo 1.jpg")
               Machines.foldered).1
      !! "./photos/team/23-06-15/Photo 1-oid_7.jpg" = Some (Blob "jpeg-7-1").
Proof.
  do 2 (split; [reflexivity|]). split.
  { apply (proj1 (attachment_outcomes (sdk := reference) points 5
                    "./photos/team/23-06-14" (mk_att 2 "sketch.png") "sketch.png"
                    "png-5-2" fresh eq_refl)).
    reflexivity. }
  do 3 (split; [reflexivity|]). split; [vm_compute; reflexivity|].
  assert (attachment_body points 7 "./photos/team/23-06-15" (mk_att 1 "Photo 1.jpg")
            Machines.foldered
          = (mk_world
               (<[final_name (os_path_join "./photos/team/23-06-15" "Photo 1.jpg") 7
                  := Blob "jpeg-7-1"]>
                  (delete (os_path_join "./photos/team/23-06-15" "Photo 1.jpg")
                     (w_files Machines.foldered)))
               (w_dirs Machines.foldered)
               (w_trace Machines.foldered
                ++ [EvDownload (os_path_join "./photos/team/23-06-15" "Photo 1.jpg");
                    EvRename (os_path_join "./photos/team/23-06-15" "Photo 1.jpg")
                      (final_name (os_path_join "./photos/team/23-06-15" "Photo 1.jpg") 7)]),
             Ok tt)) as Hmoved.
  { apply (proj1 (proj2 (attachment_outcomes (sdk := reference) points 7
                           "./photos/team/23-06-15" (mk_att 1 "Photo 1.jpg")
                           "Photo 1.jpg" "jpeg-7-1" Machines.foldered eq_refl)));
      [reflexivity|reflexivity|].
    refine (bool_decide_eq_true_1 (_ ∈ _) _). vm_compute. reflexivity. }
  rewrite Hmoved. split; [reflexivity|]. vm_compute. reflexivity.
Defined.

Lemma final_folder_is_dated_witness :
  gp_folder_name photos = Some "team"
  ∧ 0 ≤ f_created_date (mk_feature 5 1686744005000) < 253402300800000
  ∧ ∃ date,
      final_folder_of photos (mk_feature 5 1686744005000)
      = Ok (os_path_join (os_path_join (gp_save_directory photos) "team") date)
      ∧ date = pad2 (dt_year (to_datetime_ms 1686744005000) mod 100) +:+ "-"
               +:+ pad2 (dt_month (to_datetime_ms 1686744005000)) +:+ "-"
               +:+ pad2 (dt_day (to_datetime_ms 1686744005000))
      ∧ has_shape "dd-dd-dd" date = true.
Proof.
  split; [reflexivity|]. split; [simpl; lia|].
  apply (final_folder_is_dated photos "team" (mk_feature 5 1686744005000));
    [reflexivity|simpl; lia].
Defined.

Lemma completed_run_downloads_witness :
  get_photos photos fresh = ((get_photos photos fresh).1, Ok tt)
  ∧ downloads (w_trace (get_photos photos fresh).1)
    = ["./photos/team/23-06-14/Photo 1.jpg"; "./photos/team/23-06-14/sketch.png";
       "./photos/team/23-06-15/Photo 1.jpg"]
  ∧ ∃ prev mo survey psss,
      (load_cursor (log_path photos) fresh).2 = Ok (prev, mo)
      ∧ content_get (gp_id_form photos) = Ok (Some survey)
      ∧ Forall2 (layer_saved photos mo) (with_attachments survey) psss
      ∧ downloads (w_trace (get_photos photos fresh).1)
        = downloads (w_trace fresh) ++ concat (concat psss).
Proof.
  assert (get_photos photos fresh = ((get_photos photos fresh).1, Ok tt)) as Hrun
    by (vm_compute; reflexivity).
  split; [exact Hrun|]. split; [vm_compute; reflexivity|].
  exact (completed_run_downloads photos fresh _ Hrun).
Defined.

Lemma cursor_advances_with_new_rows_witness :
  w_files synced !! log_path photos = Some (JsonLog [row5])
  ∧ series_max (objectid <$> [row5]) = Int 5
  ∧ get_photos photos synced = ((get_photos photos synced).1, Ok tt)
  ∧ ∃ news,
      w_files (get_photos photos synced).1 !! log_path photos
      = Some (JsonLog ([row5] ++ news))
      ∧ Forall (λ row, 5 < objectid row) news
      ∧ (news = [] → series_max (objectid <$> ([row5] ++ news)) = Int 5)
      ∧ (news ≠ [] →
         ∃ M', series_max (objectid <$> ([row5] ++ news)) = Int M' ∧ 5 < M').
Proof.
  assert (get_photos photos synced = ((get_photos photos synced).1, Ok tt)) as Hrun
    by (vm_compute; reflexivity).
  do 2 (split; [reflexivity|]). split; [exact Hrun|].
  assert (Forall (λ fs, ∀ feats, query fs (query_args (Int 5)) = Ok feats →
                                 Forall (λ f, 5 < f_objectid f) feats)
                 (with_attachments survey)) as Hhonest.
  { constructor; [|constructor]. intros feats Hq.
    assert (query points (query_args (Int 5))
            = Ok [mk_feature 7 1686830405123; mk_feature 8 1686830405999]) as Hans
      by (vm_compute; reflexivity).
    rewrite Hans in Hq. injection Hq as Hfeats. subst feats.
    repeat constructor. }
  assert (w_trace (get_photos photos synced).1
          = w_trace synced ++ w_trace (get_photos photos synced).1) as Ht
    by (vm_compute; reflexivity).
  assert (log_path photos ∉ photo_paths (w_trace (get_photos photos synced).1))
    as Hfree.
  { refine (bool_decide_eq_false_1 (_ ∈ _) _). vm_compute. reflexivity. }
  exact (cursor_advances_with_new_rows (sdk := reference) photos [row5] 5 survey
           synced (get_photos photos synced).1 (w_trace (get_photos photos synced).1)
           eq_refl eq_refl eq_refl Hhonest Hrun Ht Hfree).
Defined.

End OnPortalMore.

(** ** A first run is a full resync *)

Section FullResync.
Context `{sdk : ArcGIS}.


End FullResync.

(** ** The full resync and the overwritten file on the reference portal *)

Section OnPortalLast.
Import Portal.
Local Existing Instance reference.


(** C5 at an input where the code misses it.  The claim: a rename target
    that already exists is left untouched.  The code: for [sketch.png] the
    target is the downloaded path itself, a file is there, and the download
    replaces its content while the warning is printed; in one run over two
    records of the same day with an attachment of that name each, the
    second download replaces the first and a single file is left. *)
Lemma C5_existing_file_overwritten :
  final_name "./photos/team/23-06-14/sketch.png" 5 = "./photos/team/23-06-14/sketch.png"
  ∧ w_files Machines.sketched !! "./photos/team/23-06-14/sketch.png" = Some (Blob "old")
  ∧ exists_in Machines.sketched (final_name "./photos/team/23-06-14/sketch.png" 5) = true
  ∧ attachment_body points 5 "./photos/team/23-06-14" (mk_att 2 "sketch.png")
      Machines.sketched
    = (logged (downloaded Machines.sketched "./photos/team/23-06-14/sketch.png" "png-5-2")
         [EvPrint (MsgFileExists 5 "./photos/team/23-06-14/sketch.png")],
       Ok tt)
  ∧ w_files (attachment_body points 5 "./photos/team/23-06-14" (mk_att 2 "sketch.png")
               Machines.sketched).1
      !! "./photos/team/23-06-14/sketch.png" = Some (Blob "png-5-2")
  ∧ (@get_photos (sdk Machines.twins) photos fresh).2 = Ok tt
  ∧ downloads (w_trace (@get_photos (sdk Machines.twins) photos fresh).1)
    = ["./photos/team/23-06-14/sketch.png"; "./photos/team/23-06-14/sketch.png"]
  ∧ w_files (@get_photos (sdk Machines.twins) photos fresh).1
      !! "./photos/team/23-06-14/sketch.png" = Some (Blob "png-6")
  ∧ dom (w_files (@get_photos (sdk Machines.twins) photos fresh).1)
    = {[ "./photos/team/23-06-14/sketch.png"; "./photos/log_photos.json" ]}.
Proof.
  split_and!; vm_compute; reflexivity.
Qed.

Example dirname_examples :
  os_path_dirname "./photos/team/23-06-14/Photo 1-oid_5.jpg" = "./photos/team/23-06-14"
  ∧ os_path_dirname "./photos-oid_7.jpg/team/23-06-15/Photo 1-oid_7.jpg"
    = "./photos-oid_7.jpg/team/23-06-15"
  ∧ os_path_dirname "photo.jpg" = ""
  ∧ os_path_dirname "/photo.jpg" = "/"
  ∧ os_path_dirname "a//b" = "a".
Proof. repeat split. Qed.

End OnPortalLast.
